(** * QoS parameter overrides of rclcpp: [rclcpp/detail/qos_parameters.hpp]

    A shallow embedding of the header and the properties of its three
    functions, [get_default_qos_param_value], [apply_qos_override] and
    [declare_qos_parameters].

    C++ values are modelled as follows.
    - Fixed-width integers are [Z]; every [static_cast] is written out as the
      wrap-around it performs.  [size_t] is taken to be 64 bits wide.
    - [std::string] is [string]; a [const char *] read by a C function is the
      prefix of the string up to its first NUL ([c_str]); a NULL pointer is
      [None].
    - An object passed by reference and mutated ([rclcpp::QoS &], the node's
      parameter interface) is threaded through a state monad; a C++
      exception is the [Throw] outcome, which keeps the state reached so far,
      as a caller holding the reference would observe it. *)

From Stdlib Require Import ZArith List String Ascii Bool Lia.
Import ListNotations.

Local Open Scope string_scope.
Local Open Scope Z_scope.

(** ** Integer conversions *)

Definition static_cast_int32 (z : Z) : Z := (z + 2 ^ 31) mod 2 ^ 32 - 2 ^ 31.
Definition static_cast_uint32 (z : Z) : Z := z mod 2 ^ 32.
Definition static_cast_int64 (z : Z) : Z := (z + 2 ^ 63) mod 2 ^ 64 - 2 ^ 63.
Definition static_cast_size_t (z : Z) : Z := z mod 2 ^ 64.

Definition is_uint64 (z : Z) : Prop := 0 <= z < 2 ^ 64.
Definition is_int64 (z : Z) : Prop := - 2 ^ 63 <= z < 2 ^ 63.

(** ** C strings *)

(** [std::string::c_str()] as seen by a function that takes a
    [const char *]: the characters before the first NUL. *)
Fixpoint c_str (s : string) : string :=
  match s with
  | EmptyString => EmptyString
  | String c s' => if Ascii.eqb c Ascii.zero then EmptyString else String c (c_str s')
  end.

(** ** Exceptions and the state monad *)

Inductive ParameterType : Type :=
| PARAMETER_BOOL
| PARAMETER_INTEGER
| PARAMETER_STRING.

Inductive exception : Type :=
| ParameterTypeException (expected actual : ParameterType)
| invalid_argument (what : string)
| runtime_error (what : string)
| InvalidQosOverridesException (what : string)
| parameter_interface_exception (what : string).

Inductive result (A : Type) : Type :=
| Return (a : A)
| Throw (e : exception).
Arguments Return {A} a.
Arguments Throw {A} e.

(** A computation over a mutable object of type [St] that may throw. *)
Definition Stateful (St A : Type) : Type := St -> result A * St.

Definition ret {St A} (a : A) : Stateful St A := fun s => (Return a, s).

Definition throw {St A} (e : exception) : Stateful St A := fun s => (Throw e, s).

Definition bind {St A B} (m : Stateful St A) (f : A -> Stateful St B) : Stateful St B :=
  fun s =>
    match m s with
    | (Return a, s') => f a s'
    | (Throw e, s') => (Throw e, s')
    end.

(** A fallible computation that touches no state. *)
Definition lift {St A} (r : result A) : Stateful St A := fun s => (r, s).

(** Reading through a [const] reference. *)
Definition inspect {St A} (f : St -> result A) : Stateful St A := fun s => (f s, s).

Definition modify {St} (f : St -> St) : Stateful St unit := fun s => (Return tt, f s).

Notation "x <- m ;; k" := (bind m (fun x => k))
  (at level 61, m at next level, right associativity).
Notation "m ;; k" := (bind m (fun _ => k))
  (at level 61, right associativity).

(** ** Data model *)

(** The enumerators named in the header, and [UnknownQosPolicyKind] for any
    other value of the underlying type, which the [default:] arms of the two
    switches handle. *)
Inductive QosPolicyKind : Type :=
| AvoidRosNamespaceConventions
| Deadline
| Durability
| History
| Depth
| Lifespan
| Liveliness
| LivelinessLeaseDuration
| Reliability
| UnknownQosPolicyKind.

Definition QosPolicyKind_eq_dec (a b : QosPolicyKind) : {a = b} + {a <> b}.
Proof. decide equality. Defined.

Definition is_enumerator (k : QosPolicyKind) : bool :=
  match k with
  | UnknownQosPolicyKind => false
  | _ => true
  end.

(** [rmw_time_t]: two unsigned 64-bit fields. *)
Record rmw_time_t : Type := mk_rmw_time {
  sec : Z;
  nsec : Z
}.

(** [rmw_qos_profile_t]; the four policy enumerations are C enums, kept as
    their integer values. *)
Record rmw_qos_profile_t : Type := mk_rmw_qos_profile {
  history : Z;
  depth : Z;
  reliability : Z;
  durability : Z;
  deadline : rmw_time_t;
  lifespan : rmw_time_t;
  liveliness : Z;
  liveliness_lease_duration : rmw_time_t;
  avoid_ros_namespace_conventions : bool
}.

(** [rclcpp::QoS] holds one [rmw_qos_profile_t] and nothing else. *)
Definition QoS : Type := rmw_qos_profile_t.
Definition get_rmw_qos_profile (qos : QoS) : rmw_qos_profile_t := qos.

Definition is_rmw_time (t : rmw_time_t) : Prop := is_uint64 (sec t) /\ is_uint64 (nsec t).

(** The fields of a profile lie in the range of their C types. *)
Definition well_typed (qos : QoS) : Prop :=
  is_uint64 (depth qos) /\ is_rmw_time (deadline qos) /\
  is_rmw_time (lifespan qos) /\ is_rmw_time (liveliness_lease_duration qos).

(** Modelled from the spec: [rclcpp::ParameterValue] (parameter_value.hpp is
    not under src/), a tagged value holding exactly one of a boolean, a
    64-bit integer or a string. *)
Inductive ParameterValue : Type :=
| ParameterValue_bool (b : bool)
| ParameterValue_int64 (i : Z)
| ParameterValue_string (s : string).

Definition get_type (v : ParameterValue) : ParameterType :=
  match v with
  | ParameterValue_bool _ => PARAMETER_BOOL
  | ParameterValue_int64 _ => PARAMETER_INTEGER
  | ParameterValue_string _ => PARAMETER_STRING
  end.

(** Modelled from the spec: [ParameterValue::get<T>()], which the spec
    describes as requiring the variant that matches [T]; asking for another
    variant throws. *)
Definition get_bool (v : ParameterValue) : result bool :=
  match v with
  | ParameterValue_bool b => Return b
  | _ => Throw (ParameterTypeException PARAMETER_BOOL (get_type v))
  end.

Definition get_int64_t (v : ParameterValue) : result Z :=
  match v with
  | ParameterValue_int64 i => Return i
  | _ => Throw (ParameterTypeException PARAMETER_INTEGER (get_type v))
  end.

Definition get_string (v : ParameterValue) : result string :=
  match v with
  | ParameterValue_string s => Return s
  | _ => Throw (ParameterTypeException PARAMETER_STRING (get_type v))
  end.

(** [rcl_interfaces::msg::ParameterDescriptor], the two fields the header
    sets. *)
Record ParameterDescriptor : Type := mk_descriptor {
  description : string;
  read_only : bool
}.

(** [rclcpp::QosOverridingOptions]: [validation_callback] is a
    [std::function], empty when [None]. *)
Record QosOverridingOptions : Type := mk_options {
  id : string;
  policy_kinds : list QosPolicyKind;
  validation_callback : option (QoS -> bool)
}.

(** The value a profile holds for one policy kind. *)
Inductive PolicyValue : Type :=
| bool_value (b : bool)
| duration_value (t : rmw_time_t)
| count_value (n : Z)
| enum_value (e : Z).

Definition policy_slot (k : QosPolicyKind) (qos : QoS) : option PolicyValue :=
  match k with
  | AvoidRosNamespaceConventions => Some (bool_value (avoid_ros_namespace_conventions qos))
  | Deadline => Some (duration_value (deadline qos))
  | Durability => Some (enum_value (durability qos))
  | History => Some (enum_value (history qos))
  | Depth => Some (count_value (depth qos))
  | Lifespan => Some (duration_value (lifespan qos))
  | Liveliness => Some (enum_value (liveliness qos))
  | LivelinessLeaseDuration => Some (duration_value (liveliness_lease_duration qos))
  | Reliability => Some (enum_value (reliability qos))
  | UnknownQosPolicyKind => None
  end.

(** ** Entity traits *)

Record EntityQosParametersTraits : Type := mk_traits {
  entity_type : string;
  allowed_policies : list QosPolicyKind
}.

Definition PublisherQosParametersTraits : EntityQosParametersTraits :=
  {| entity_type := "publisher";
     allowed_policies :=
       [ AvoidRosNamespaceConventions;
         Deadline;
         Durability;
         History;
         Depth;
         Lifespan;
         Liveliness;
         LivelinessLeaseDuration;
         Reliability ] |}.

Definition SubscriptionQosParametersTraits : EntityQosParametersTraits :=
  {| entity_type := "subscription";
     allowed_policies :=
       [ AvoidRosNamespaceConventions;
         Deadline;
         Durability;
         History;
         Depth;
         Liveliness;
         LivelinessLeaseDuration;
         Reliability ] |}.

(** ** Collaborators outside the header *)

(** The enum/string lookup functions of [rmw/qos_string_conversions.h].
    [to_str] returns a NULL pointer ([None]) for a value without a name;
    [from_str] returns the [UNKNOWN] enumerator for a string it does not
    recognise. *)
Class Rmw : Type := {
  rmw_qos_durability_policy_to_str : Z -> option string;
  rmw_qos_durability_policy_from_str : string -> Z;
  RMW_QOS_POLICY_DURABILITY_UNKNOWN : Z;
  rmw_qos_history_policy_to_str : Z -> option string;
  rmw_qos_history_policy_from_str : string -> Z;
  RMW_QOS_POLICY_HISTORY_UNKNOWN : Z;
  rmw_qos_liveliness_policy_to_str : Z -> option string;
  rmw_qos_liveliness_policy_from_str : string -> Z;
  RMW_QOS_POLICY_LIVELINESS_UNKNOWN : Z;
  rmw_qos_reliability_policy_to_str : Z -> option string;
  rmw_qos_reliability_policy_from_str : string -> Z;
  RMW_QOS_POLICY_RELIABILITY_UNKNOWN : Z
}.

(** What the header uses of rclcpp and of the C++ library and that neither
    src/ nor the spec determines.
    - [qos_policy_kind_to_cstr] (qos_overriding_options.hpp): the spec calls
      it the stringified policy kind and gives its value at [Depth] only.
    - [negative_duration_to_rmw_time]: what [rclcpp::Duration] does when a
      negative nanosecond count is converted to the unsigned [rmw_time_t];
      the spec is silent on it.
    - [null_insertion_text]: what an output stream holds after a NULL
      [const char *] and then ["}"] are inserted in it, as
      [check_if_stringified_policy_is_null] does; the standard leaves the
      insertion of a null pointer undefined. *)
Class Rclcpp : Type := {
  qos_policy_kind_to_cstr : QosPolicyKind -> string;
  negative_duration_to_rmw_time : Z -> result rmw_time_t;
  null_insertion_text : string
}.

(** [rclcpp::node_interfaces::NodeParametersInterface::declare_parameter]:
    the state of the node's parameters is [P]; the call returns the
    effective value of the parameter or throws. *)
Class NodeParametersInterface (P : Type) : Type := {
  declare_parameter : string -> ParameterValue -> ParameterDescriptor -> Stateful P ParameterValue
}.

(** One call of [declare_parameter], as the node sees it. *)
Record Declaration : Type := mk_declaration {
  declared_name : string;
  declared_default : ParameterValue;
  declared_descriptor : ParameterDescriptor
}.

(** The two objects [declare_qos_parameters] receives by reference, and the
    calls of [declare_parameter] made so far. *)
Record Refs (P : Type) : Type := mk_refs {
  ref_qos : QoS;
  ref_parameters : P;
  declared : list Declaration
}.
Arguments mk_refs {P} _ _ _.
Arguments ref_qos {P} _.
Arguments ref_parameters {P} _.
Arguments declared {P} _.

(** ** Setters of [rclcpp::QoS] *)

Definition set_avoid_ros_namespace_conventions (b : bool) (q : QoS) : QoS :=
  mk_rmw_qos_profile (history q) (depth q) (reliability q) (durability q) (deadline q)
    (lifespan q) (liveliness q) (liveliness_lease_duration q) b.

Definition set_deadline (t : rmw_time_t) (q : QoS) : QoS :=
  mk_rmw_qos_profile (history q) (depth q) (reliability q) (durability q) t
    (lifespan q) (liveliness q) (liveliness_lease_duration q)
    (avoid_ros_namespace_conventions q).

Definition set_durability (e : Z) (q : QoS) : QoS :=
  mk_rmw_qos_profile (history q) (depth q) (reliability q) e (deadline q)
    (lifespan q) (liveliness q) (liveliness_lease_duration q)
    (avoid_ros_namespace_conventions q).

Definition set_history (e : Z) (q : QoS) : QoS :=
  mk_rmw_qos_profile e (depth q) (reliability q) (durability q) (deadline q)
    (lifespan q) (liveliness q) (liveliness_lease_duration q)
    (avoid_ros_namespace_conventions q).

Definition set_depth (n : Z) (q : QoS) : QoS :=
  mk_rmw_qos_profile (history q) n (reliability q) (durability q) (deadline q)
    (lifespan q) (liveliness q) (liveliness_lease_duration q)
    (avoid_ros_namespace_conventions q).

Definition set_lifespan (t : rmw_time_t) (q : QoS) : QoS :=
  mk_rmw_qos_profile (history q) (depth q) (reliability q) (durability q) (deadline q)
    t (liveliness q) (liveliness_lease_duration q)
    (avoid_ros_namespace_conventions q).

Definition set_liveliness (e : Z) (q : QoS) : QoS :=
  mk_rmw_qos_profile (history q) (depth q) (reliability q) (durability q) (deadline q)
    (lifespan q) e (liveliness_lease_duration q)
    (avoid_ros_namespace_conventions q).

Definition set_liveliness_lease_duration (t : rmw_time_t) (q : QoS) : QoS :=
  mk_rmw_qos_profile (history q) (depth q) (reliability q) (durability q) (deadline q)
    (lifespan q) (liveliness q) t
    (avoid_ros_namespace_conventions q).

Definition set_reliability (e : Z) (q : QoS) : QoS :=
  mk_rmw_qos_profile (history q) (depth q) e (durability q) (deadline q)
    (lifespan q) (liveliness q) (liveliness_lease_duration q)
    (avoid_ros_namespace_conventions q).

Section Header.

Context {rmw : Rmw} {rclcpp : Rclcpp}.

(** ** [rclcpp::Duration] *)

(** Modelled from the spec: [rclcpp::Duration] (duration.hpp is not under
    src/).  A duration is a signed 64-bit count of nanoseconds; built from
    seconds and nanoseconds it is their sum in nanoseconds; as the
    seconds-and-nanoseconds pair of a profile it is the quotient and the
    remainder by [10^9]. *)
Definition Duration : Type := Z.

Definition RCL_S_TO_NS (seconds : Z) : Z := seconds * (1000 * 1000 * 1000).

(** Modelled from the spec: the constructor of [rclcpp::Duration] from a
    nanosecond count. *)
Definition Duration_of_nanoseconds (nanoseconds : Z) : Duration := nanoseconds.

(** Modelled from the spec: the constructor of [rclcpp::Duration] from
    [int32_t] seconds and [uint32_t] nanoseconds; the sum of such arguments
    is within the signed 64-bit range. *)
Definition Duration_of_seconds (seconds nanoseconds : Z) : Duration :=
  RCL_S_TO_NS seconds + nanoseconds.

(** Modelled from the spec: [rclcpp::Duration::nanoseconds]. *)
Definition nanoseconds (d : Duration) : Z := d.

(** Modelled from the spec: the conversion of [rclcpp::Duration] to the
    [rmw_time_t] that a setter of [rclcpp::QoS] stores. *)
Definition to_rmw_time (d : Duration) : result rmw_time_t :=
  if d <? 0 then negative_duration_to_rmw_time d
  else Return {| sec := d / RCL_S_TO_NS 1; nsec := d mod RCL_S_TO_NS 1 |}.

(** Modelled from the spec: the per-kind setters of [rclcpp::QoS] (qos.hpp is
    not under src/), each writing the slot of its kind. *)
Definition QoS_avoid_ros_namespace_conventions (b : bool) : Stateful QoS unit :=
  modify (set_avoid_ros_namespace_conventions b).

Definition QoS_deadline (d : Duration) : Stateful QoS unit :=
  t <- lift (to_rmw_time d) ;; modify (set_deadline t).

Definition QoS_lifespan (d : Duration) : Stateful QoS unit :=
  t <- lift (to_rmw_time d) ;; modify (set_lifespan t).

Definition QoS_liveliness_lease_duration (d : Duration) : Stateful QoS unit :=
  t <- lift (to_rmw_time d) ;; modify (set_liveliness_lease_duration t).

Definition QoS_durability (e : Z) : Stateful QoS unit := modify (set_durability e).
Definition QoS_history (e : Z) : Stateful QoS unit := modify (set_history e).
Definition QoS_liveliness (e : Z) : Stateful QoS unit := modify (set_liveliness e).
Definition QoS_reliability (e : Z) : Stateful QoS unit := modify (set_reliability e).

(** ** [apply_qos_override] *)

(** The macro; [kind_lower] stands for the stringified token,
    [policy_from_str] and [POLICY_UNKNOWN] for the two pasted names and
    [setter] for the member of [rclcpp_qos] that the token selects. *)
Definition RCLCPP_DETAIL_QOS_POLICY_FROM_PARAMETER_STRING
    (kind_lower : string) (policy_from_str : string -> Z) (POLICY_UNKNOWN : Z)
    (setter : Z -> Stateful QoS unit)
    (parameter_value : ParameterValue) : Stateful QoS unit :=
  policy_string <- lift (get_string parameter_value) ;;
  let policy_value := policy_from_str (c_str policy_string) in
  if POLICY_UNKNOWN =? policy_value
  then throw (invalid_argument ("unknown qos policy " ++ kind_lower ++ " value: " ++ policy_string))
  else setter policy_value.

Definition apply_qos_override (policy : QosPolicyKind) (value : ParameterValue)
  : Stateful QoS unit :=
  match policy with
  | AvoidRosNamespaceConventions =>
      b <- lift (get_bool value) ;; QoS_avoid_ros_namespace_conventions b
  | Deadline =>
      i <- lift (get_int64_t value) ;; QoS_deadline (Duration_of_nanoseconds i)
  | Durability =>
      RCLCPP_DETAIL_QOS_POLICY_FROM_PARAMETER_STRING "durability"
        rmw_qos_durability_policy_from_str RMW_QOS_POLICY_DURABILITY_UNKNOWN
        QoS_durability value
  | History =>
      RCLCPP_DETAIL_QOS_POLICY_FROM_PARAMETER_STRING "history"
        rmw_qos_history_policy_from_str RMW_QOS_POLICY_HISTORY_UNKNOWN
        QoS_history value
  | Depth =>
      i <- lift (get_int64_t value) ;; modify (set_depth (static_cast_size_t i))
  | Lifespan =>
      i <- lift (get_int64_t value) ;; QoS_lifespan (Duration_of_nanoseconds i)
  | Liveliness =>
      RCLCPP_DETAIL_QOS_POLICY_FROM_PARAMETER_STRING "liveliness"
        rmw_qos_liveliness_policy_from_str RMW_QOS_POLICY_LIVELINESS_UNKNOWN
        QoS_liveliness value
  | LivelinessLeaseDuration =>
      i <- lift (get_int64_t value) ;;
      QoS_liveliness_lease_duration (Duration_of_nanoseconds i)
  | Reliability =>
      RCLCPP_DETAIL_QOS_POLICY_FROM_PARAMETER_STRING "reliability"
        rmw_qos_reliability_policy_from_str RMW_QOS_POLICY_RELIABILITY_UNKNOWN
        QoS_reliability value
  | UnknownQosPolicyKind => throw (runtime_error "unknown QosPolicyKind")
  end.

(** ** [get_default_qos_param_value] *)

Definition rmw_duration_to_int64_t (rmw_duration : rmw_time_t) : Z :=
  nanoseconds
    (Duration_of_seconds
       (static_cast_int32 (sec rmw_duration))
       (static_cast_uint32 (nsec rmw_duration))).

(** Modelled from the spec: the stream insertion of a [QosPolicyKind]
    (qos_overriding_options.hpp is not under src/); the error is said to
    identify the kind, so the insertion writes the stringified kind. *)
Definition insert_QosPolicyKind (oss : string) (kind : QosPolicyKind) : string :=
  oss ++ qos_policy_kind_to_cstr kind.

Definition check_if_stringified_policy_is_null
    (policy_value_stringified : option string) (kind : QosPolicyKind) : result string :=
  match policy_value_stringified with
  | None =>
      let oss := "unknown " in
      let oss := insert_QosPolicyKind oss kind ++ " qos policy value: {" in
      let oss := oss ++ null_insertion_text in
      Throw (invalid_argument oss)
  | Some s => Return s
  end.

(** The [ParameterValue] constructor that takes a [const char *] reads the
    characters up to the NUL. *)
Definition ParameterValue_of_cstr (r : result string) : result ParameterValue :=
  match r with
  | Return s => Return (ParameterValue_string (c_str s))
  | Throw e => Throw e
  end.

Definition get_default_qos_param_value (qpk : QosPolicyKind) (qos : QoS)
  : result ParameterValue :=
  let rmw_qos := get_rmw_qos_profile qos in
  match qpk with
  | AvoidRosNamespaceConventions =>
      Return (ParameterValue_bool (avoid_ros_namespace_conventions rmw_qos))
  | Deadline =>
      Return (ParameterValue_int64 (rmw_duration_to_int64_t (deadline rmw_qos)))
  | Durability =>
      ParameterValue_of_cstr
        (check_if_stringified_policy_is_null
           (rmw_qos_durability_policy_to_str (durability rmw_qos)) qpk)
  | History =>
      ParameterValue_of_cstr
        (check_if_stringified_policy_is_null
           (rmw_qos_history_policy_to_str (history rmw_qos)) qpk)
  | Depth =>
      Return (ParameterValue_int64 (static_cast_int64 (depth rmw_qos)))
  | Lifespan =>
      Return (ParameterValue_int64 (rmw_duration_to_int64_t (lifespan rmw_qos)))
  | Liveliness =>
      ParameterValue_of_cstr
        (check_if_stringified_policy_is_null
           (rmw_qos_liveliness_policy_to_str (liveliness rmw_qos)) qpk)
  | LivelinessLeaseDuration =>
      Return (ParameterValue_int64
                (rmw_duration_to_int64_t (liveliness_lease_duration rmw_qos)))
  | Reliability =>
      ParameterValue_of_cstr
        (check_if_stringified_policy_is_null
           (rmw_qos_reliability_policy_to_str (reliability rmw_qos)) qpk)
  | UnknownQosPolicyKind => Throw (invalid_argument "unknown qos policy kind")
  end.

(** ** [declare_qos_parameters] *)

Section Declare.

Context {P : Type} {node : NodeParametersInterface P}.

(** Running a computation on the profile behind the [qos] reference. *)
Definition on_qos {A} (m : Stateful QoS A) : Stateful (Refs P) A :=
  fun w =>
    let (r, q) := m (ref_qos w) in
    (r, mk_refs q (ref_parameters w) (declared w)).

(** Calling [declare_parameter] on the node behind [parameters_interface]. *)
Definition call_declare_parameter (name : string) (default : ParameterValue)
    (descriptor : ParameterDescriptor) : Stateful (Refs P) ParameterValue :=
  fun w =>
    let (r, p) := declare_parameter name default descriptor (ref_parameters w) in
    (r, mk_refs (ref_qos w) p
          (declared w ++ [mk_declaration name default descriptor])%list).

Fixpoint for_each {St} (range : list QosPolicyKind)
    (body : QosPolicyKind -> Stateful St unit) : Stateful St unit :=
  match range with
  | [] => ret tt
  | policy :: rest => body policy ;; for_each rest body
  end.

(** [std::string::empty]. *)
Definition empty (s : string) : bool :=
  match s with
  | EmptyString => true
  | String _ _ => false
  end.

(** [std::count] over the requested kinds. *)
Definition count (kinds : list QosPolicyKind) (policy : QosPolicyKind) : nat :=
  count_occ QosPolicyKind_eq_dec kinds policy.

Definition param_prefix_of (options : QosOverridingOptions) (topic_name : string)
    (traits : EntityQosParametersTraits) : string :=
  let oss := "qos_overrides." in
  let oss := oss ++ topic_name ++ "." ++ entity_type traits in
  let oss := if negb (empty (id options)) then oss ++ "_" ++ id options else oss in
  oss ++ ".".

Definition param_description_suffix_of (options : QosOverridingOptions)
    (topic_name : string) (traits : EntityQosParametersTraits) : string :=
  let oss := "} for " in
  let oss := oss ++ entity_type traits ++ " {" ++ topic_name ++ "}" in
  if negb (empty (id options)) then oss ++ " with id {" ++ id options ++ "}" else oss.

(** The body of the loop over the allowed policies. *)
Definition declare_policy (options : QosOverridingOptions)
    (param_prefix param_description_suffix : string) (policy : QosPolicyKind)
  : Stateful (Refs P) unit :=
  if negb (Nat.eqb (count (policy_kinds options) policy) 0) then
    let param_name := param_prefix ++ qos_policy_kind_to_cstr policy in
    let param_desciption :=
      "qos policy {" ++ qos_policy_kind_to_cstr policy ++ param_description_suffix in
    let descriptor := {| description := param_desciption; read_only := true |} in
    default <- on_qos (inspect (get_default_qos_param_value policy)) ;;
    value <- call_declare_parameter param_name default descriptor ;;
    on_qos (apply_qos_override policy value)
  else ret tt.

Definition validate (options : QosOverridingOptions) : Stateful (Refs P) unit :=
  fun w =>
    match validation_callback options with
    | Some callback =>
        if negb (callback (ref_qos w))
        then (Throw (InvalidQosOverridesException "validation callback failed"), w)
        else (Return tt, w)
    | None => (Return tt, w)
    end.

Definition declare_qos_parameters (options : QosOverridingOptions)
    (topic_name : string) (traits : EntityQosParametersTraits)
  : Stateful (Refs P) unit :=
  let param_prefix := param_prefix_of options topic_name traits in
  let param_description_suffix := param_description_suffix_of options topic_name traits in
  for_each (allowed_policies traits)
    (declare_policy options param_prefix param_description_suffix) ;;
  validate options.

(** The two entry points, with the arguments of the header. *)
Definition declare_publisher_qos_parameters (options : QosOverridingOptions)
    (parameters_interface : P) (topic_name : string) (qos : QoS)
  : result unit * Refs P :=
  declare_qos_parameters options topic_name PublisherQosParametersTraits
    (mk_refs qos parameters_interface []).

Definition declare_subscription_qos_parameters (options : QosOverridingOptions)
    (parameters_interface : P) (topic_name : string) (qos : QoS)
  : result unit * Refs P :=
  declare_qos_parameters options topic_name SubscriptionQosParametersTraits
    (mk_refs qos parameters_interface []).

End Declare.

End Header.

(** ** Vocabulary of the properties *)

Section Vocabulary.

Context {rmw : Rmw} {rclcpp : Rclcpp}.

(** The value domain of each policy kind, as the variant of
    [ParameterValue] that carries it. *)
Definition required_type (k : QosPolicyKind) : option ParameterType :=
  match k with
  | AvoidRosNamespaceConventions => Some PARAMETER_BOOL
  | Deadline | Lifespan | LivelinessLeaseDuration | Depth => Some PARAMETER_INTEGER
  | Durability | History | Liveliness | Reliability => Some PARAMETER_STRING
  | UnknownQosPolicyKind => None
  end.

(** The duration kinds and the field each of them names. *)
Definition duration_field (k : QosPolicyKind) : option (QoS -> rmw_time_t) :=
  match k with
  | Deadline => Some deadline
  | Lifespan => Some lifespan
  | LivelinessLeaseDuration => Some liveliness_lease_duration
  | _ => None
  end.

(** The string-enum kinds: the name of the kind in messages, its two lookup
    functions, its unknown enumerator and the field it names. *)
Record StringEnum : Type := mk_string_enum {
  enum_name : string;
  enum_to_str : Z -> option string;
  enum_from_str : string -> Z;
  enum_UNKNOWN : Z;
  enum_field : QoS -> Z
}.

Definition string_enum (k : QosPolicyKind) : option StringEnum :=
  match k with
  | Durability =>
      Some (mk_string_enum "durability" rmw_qos_durability_policy_to_str
              rmw_qos_durability_policy_from_str RMW_QOS_POLICY_DURABILITY_UNKNOWN
              durability)
  | History =>
      Some (mk_string_enum "history" rmw_qos_history_policy_to_str
              rmw_qos_history_policy_from_str RMW_QOS_POLICY_HISTORY_UNKNOWN
              history)
  | Liveliness =>
      Some (mk_string_enum "liveliness" rmw_qos_liveliness_policy_to_str
              rmw_qos_liveliness_policy_from_str RMW_QOS_POLICY_LIVELINESS_UNKNOWN
              liveliness)
  | Reliability =>
      Some (mk_string_enum "reliability" rmw_qos_reliability_policy_to_str
              rmw_qos_reliability_policy_from_str RMW_QOS_POLICY_RELIABILITY_UNKNOWN
              reliability)
  | _ => None
  end.

Definition has_name (to_str : Z -> option string) (e : Z) : bool :=
  match to_str e with
  | Some _ => true
  | None => false
  end.

(** A valid profile: each of its four enum values has a string. *)
Definition valid_profile (qos : QoS) : bool :=
  has_name rmw_qos_durability_policy_to_str (durability qos) &&
  has_name rmw_qos_history_policy_to_str (history qos) &&
  has_name rmw_qos_liveliness_policy_to_str (liveliness qos) &&
  has_name rmw_qos_reliability_policy_to_str (reliability qos).

(** The contract of a pair of lookup functions: [from_str] inverts [to_str]
    wherever [to_str] yields a string, and the unknown enumerator has none. *)
Definition inverse_lookup (e : StringEnum) : Prop :=
  (forall v s, enum_to_str e v = Some s -> enum_from_str e (c_str s) = v) /\
  enum_to_str e (enum_UNKNOWN e) = None.

Definition inverse_lookups : Prop :=
  forall k e, string_enum k = Some e -> inverse_lookup e.

(** Encoding the value of kind [k] and applying it back succeeds and leaves
    the profile as it was at [k]. *)
Definition round_trips (k : QosPolicyKind) (p : QoS) : Prop :=
  exists v p',
    get_default_qos_param_value k p = Return v /\
    apply_qos_override k v p = (Return tt, p') /\
    policy_slot k p' = policy_slot k p.

(** The duration that a profile holds at a duration kind has fewer than
    [2^31] seconds and fewer than [10^9] nanoseconds. *)
Definition normalized_duration (k : QosPolicyKind) (p : QoS) : Prop :=
  forall field, duration_field k = Some field ->
    0 <= sec (field p) < 2 ^ 31 /\ 0 <= nsec (field p) < 10 ^ 9.

(** The parameter name as the spec composes it. *)
Definition build_name (topic entity_type_tag id : string) (policy_kind : QosPolicyKind)
  : string :=
  "qos_overrides." ++ topic ++ "." ++ entity_type_tag
    ++ (if empty id then "" else "_" ++ id)
    ++ "." ++ qos_policy_kind_to_cstr policy_kind.

(** The parameter description as the spec composes it. *)
Definition build_description (topic entity_type_tag id : string)
    (policy_kind : QosPolicyKind) : string :=
  "qos policy {" ++ qos_policy_kind_to_cstr policy_kind ++ "} for " ++ entity_type_tag
    ++ " {" ++ topic ++ "}"
    ++ (if empty id then "" else " with id {" ++ id ++ "}").

(** The kinds for which a pass declares a parameter: those of the catalog
    that were requested, in catalog order. *)
Definition eligible (options : QosOverridingOptions) (traits : EntityQosParametersTraits)
  : list QosPolicyKind :=
  filter (fun k => negb (Nat.eqb (count (policy_kinds options) k) 0))
    (allowed_policies traits).

Definition requests (options : QosOverridingOptions) (kinds : list QosPolicyKind)
  : QosOverridingOptions :=
  mk_options (id options) kinds (validation_callback options).

Definition without_callback (options : QosOverridingOptions) : QosOverridingOptions :=
  mk_options (id options) (policy_kinds options) None.

End Vocabulary.

(** ** Instances of the collaborators *)

(** Lookup tables in the manner of rmw's: three or four named values per
    enumeration, then the unknown enumerator. *)
Definition named (names : list (Z * string)) (e : Z) : option string :=
  match find (fun entry => fst entry =? e) names with
  | Some entry => Some (snd entry)
  | None => None
  end.

Definition valued (unknown : Z) (names : list (Z * string)) (s : string) : Z :=
  match find (fun entry => String.eqb (snd entry) s) names with
  | Some entry => fst entry
  | None => unknown
  end.

Definition durability_names : list (Z * string) :=
  [(0, "system_default"); (1, "transient_local"); (2, "volatile")].
Definition history_names : list (Z * string) :=
  [(0, "system_default"); (1, "keep_last"); (2, "keep_all")].
Definition liveliness_names : list (Z * string) :=
  [(0, "system_default"); (1, "automatic"); (3, "manual_by_topic")].
Definition reliability_names : list (Z * string) :=
  [(0, "system_default"); (1, "reliable"); (2, "best_effort")].

Definition rmw_tables : Rmw :=
  {| rmw_qos_durability_policy_to_str := named durability_names;
     rmw_qos_durability_policy_from_str := valued 3 durability_names;
     RMW_QOS_POLICY_DURABILITY_UNKNOWN := 3;
     rmw_qos_history_policy_to_str := named history_names;
     rmw_qos_history_policy_from_str := valued 3 history_names;
     RMW_QOS_POLICY_HISTORY_UNKNOWN := 3;
     rmw_qos_liveliness_policy_to_str := named liveliness_names;
     rmw_qos_liveliness_policy_from_str := valued 4 liveliness_names;
     RMW_QOS_POLICY_LIVELINESS_UNKNOWN := 4;
     rmw_qos_reliability_policy_to_str := named reliability_names;
     rmw_qos_reliability_policy_from_str := valued 3 reliability_names;
     RMW_QOS_POLICY_RELIABILITY_UNKNOWN := 3 |}.

(** Modelled from the spec: [qos_policy_kind_to_cstr]
    (qos_overriding_options.hpp is not under src/).  The spec fixes
    ["depth"] for [Depth]; the other kinds take the lower-case form of their
    names in the same manner. *)
Definition policy_kind_names (k : QosPolicyKind) : string :=
  match k with
  | AvoidRosNamespaceConventions => "avoid_ros_namespace_conventions"
  | Deadline => "deadline"
  | Durability => "durability"
  | History => "history"
  | Depth => "depth"
  | Lifespan => "lifespan"
  | Liveliness => "liveliness"
  | LivelinessLeaseDuration => "liveliness_lease_duration"
  | Reliability => "reliability"
  | UnknownQosPolicyKind => ""
  end.

(** An instance in which a negative duration is refused and a stream drops
    what follows a NULL pointer. *)
Definition rclcpp_parts : Rclcpp :=
  {| qos_policy_kind_to_cstr := policy_kind_names;
     negative_duration_to_rmw_time :=
       fun _ => Throw (runtime_error "rmw_time_t cannot be negative");
     null_insertion_text := "" |}.

(** A node that keeps the overrides it was started with and the parameters
    declared so far in association lists.  Declaring a name twice is
    refused; a declared parameter takes its override when there is one and
    its default otherwise. *)
Record Node : Type := mk_node {
  parameter_overrides : list (string * ParameterValue);
  parameters : list (string * ParameterValue)
}.

Fixpoint lookup (name : string) (entries : list (string * ParameterValue))
  : option ParameterValue :=
  match entries with
  | [] => None
  | (n, v) :: rest => if String.eqb n name then Some v else lookup name rest
  end.

Definition Node_declare_parameter (name : string) (default : ParameterValue)
    (descriptor : ParameterDescriptor) : Stateful Node ParameterValue :=
  fun n =>
    match lookup name (parameters n) with
    | Some _ =>
        (Throw (parameter_interface_exception ("parameter already declared: " ++ name)), n)
    | None =>
        let value :=
          match lookup name (parameter_overrides n) with
          | Some v => v
          | None => default
          end in
        (Return value, mk_node (parameter_overrides n) ((name, value) :: parameters n))
    end.

Definition Node_parameters : NodeParametersInterface Node :=
  {| declare_parameter := Node_declare_parameter |}.

(** A profile with every policy at its system default, and the same profile
    with an unbounded deadline, [9223372036] seconds and [854775807]
    nanoseconds, that is [2^63 - 1] nanoseconds. *)
Definition system_default_profile : QoS :=
  {| history := 0; depth := 0; reliability := 0; durability := 0;
     deadline := mk_rmw_time 0 0; lifespan := mk_rmw_time 0 0;
     liveliness := 0; liveliness_lease_duration := mk_rmw_time 0 0;
     avoid_ros_namespace_conventions := false |}.

Definition unbounded_deadline_profile : QoS :=
  set_deadline (mk_rmw_time 9223372036 854775807) system_default_profile.

(** The same profile with a deadline of a second and a half, all of it in
    the nanoseconds field. *)
Definition unnormalized_deadline_profile : QoS :=
  set_deadline (mk_rmw_time 0 1500000000) system_default_profile.

(** A profile in the manner of sensor data: the last ten samples, best
    effort, volatile, a deadline of a second and a half. *)
Definition sensor_data_profile : QoS :=
  {| history := 1; depth := 10; reliability := 2; durability := 2;
     deadline := mk_rmw_time 1 500000000; lifespan := mk_rmw_time 0 0;
     liveliness := 1; liveliness_lease_duration := mk_rmw_time 2 0;
     avoid_ros_namespace_conventions := false |}.

(** A profile whose durability is the unknown enumerator. *)
Definition unknown_durability_profile : QoS := set_durability 3 system_default_profile.

(** A node started with the given overrides, and the references a call
    starts from. *)
Definition node_with (overrides : list (string * ParameterValue)) : Node :=
  mk_node overrides [].

Definition start (qos : QoS) (n : Node) : Refs Node := mk_refs qos n [].

(** Options that request depth and reliability for the publisher with id
    ["sensor"], and a callback that accepts depths below three only. *)
Definition shallow (qos : QoS) : bool := depth qos <? 3.

Definition sensor_options (callback : option (QoS -> bool)) : QosOverridingOptions :=
  mk_options "sensor" [Depth; Reliability] callback.

Definition depth_override : list (string * ParameterValue) :=
  [("qos_overrides.chatter.publisher_sensor.depth", ParameterValue_int64 5)].

Definition bad_reliability_override : list (string * ParameterValue) :=
  [("qos_overrides.chatter.publisher_sensor.depth", ParameterValue_int64 5);
   ("qos_overrides.chatter.publisher_sensor.reliability",
    ParameterValue_string "not-a-real-value")].

(** A node without overrides that accepts every declaration: the effective
    value of a parameter is its default. *)
Definition Echo_declare_parameter (name : string) (default : ParameterValue)
    (descriptor : ParameterDescriptor) : Stateful unit ParameterValue :=
  fun n => (Return default, n).

Definition Echo_parameters : NodeParametersInterface unit :=
  {| declare_parameter := Echo_declare_parameter |}.

(** Options that request every kind, some of them twice, for an entity
    without id. *)
Definition every_kind_options : QosOverridingOptions :=
  mk_options ""
    [Reliability; Depth; Deadline; Durability; History; Lifespan; Liveliness;
     LivelinessLeaseDuration; AvoidRosNamespaceConventions; Depth; Reliability]
    None.

(** * Properties *)

(** ** Integers, C strings and the monad *)

Lemma c_str_idempotent (s : string) : c_str (c_str s) = c_str s.
Proof.
  induction s as [|c s IH]; simpl; [reflexivity|].
  destruct (Ascii.eqb c Ascii.zero) eqn:E; simpl; [reflexivity|].
  now rewrite E, IH.
Qed.

Lemma append_assoc (s1 s2 s3 : string) : (s1 ++ s2) ++ s3 = s1 ++ (s2 ++ s3).
Proof. induction s1 as [|c s1 IH]; simpl; [reflexivity|now rewrite IH]. Qed.

Lemma size_t_of_int64_of_size_t (n : Z) :
  is_uint64 n -> static_cast_size_t (static_cast_int64 n) = n.
Proof.
  unfold is_uint64, static_cast_size_t, static_cast_int64. intros Hn.
  destruct (Z_lt_ge_dec n (2 ^ 63)) as [Hlt|Hge].
  - rewrite (Z.mod_small (n + 2 ^ 63)) by lia.
    replace (n + 2 ^ 63 - 2 ^ 63) with n by lia.
    apply Z.mod_small; lia.
  - replace (n + 2 ^ 63) with (n - 2 ^ 63 + 1 * 2 ^ 64) by lia.
    rewrite Z.mod_add by lia.
    rewrite (Z.mod_small (n - 2 ^ 63)) by lia.
    replace (n - 2 ^ 63 - 2 ^ 63) with (n + (-1) * 2 ^ 64) by lia.
    rewrite Z.mod_add by lia.
    apply Z.mod_small; lia.
Qed.

Lemma int32_of_small (s : Z) : 0 <= s < 2 ^ 31 -> static_cast_int32 s = s.
Proof.
  unfold static_cast_int32. intros Hs.
  rewrite Z.mod_small by lia. lia.
Qed.

Lemma uint32_of_small (n : Z) : 0 <= n < 2 ^ 32 -> static_cast_uint32 n = n.
Proof. unfold static_cast_uint32. intros Hn. apply Z.mod_small; lia. Qed.

Lemma int32_range (z : Z) : - 2 ^ 31 <= static_cast_int32 z < 2 ^ 31.
Proof.
  unfold static_cast_int32.
  pose proof (Z.mod_pos_bound (z + 2 ^ 31) (2 ^ 32) ltac:(lia)). lia.
Qed.

Lemma uint32_range (z : Z) : 0 <= static_cast_uint32 z < 2 ^ 32.
Proof. unfold static_cast_uint32. apply Z.mod_pos_bound. lia. Qed.

Lemma rmw_time_eta (t : rmw_time_t) : mk_rmw_time (sec t) (nsec t) = t.
Proof. now destruct t. Qed.

Section Codec.

Context {rmw : Rmw} {rclcpp : Rclcpp}.

(** ** The duration codec *)

Lemma rmw_duration_to_int64_t_eq (t : rmw_time_t) :
  rmw_duration_to_int64_t t =
  static_cast_int32 (sec t) * 10 ^ 9 + static_cast_uint32 (nsec t).
Proof. reflexivity. Qed.

Lemma rmw_duration_to_int64_t_is_int64 (t : rmw_time_t) :
  is_int64 (rmw_duration_to_int64_t t).
Proof.
  rewrite rmw_duration_to_int64_t_eq. unfold is_int64.
  pose proof (int32_range (sec t)). pose proof (uint32_range (nsec t)). lia.
Qed.

Lemma rmw_duration_to_int64_t_exact (t : rmw_time_t) :
  0 <= sec t < 2 ^ 31 -> 0 <= nsec t < 2 ^ 32 ->
  rmw_duration_to_int64_t t = sec t * 10 ^ 9 + nsec t.
Proof.
  intros Hs Hn. rewrite rmw_duration_to_int64_t_eq.
  now rewrite int32_of_small, uint32_of_small.
Qed.

Lemma to_rmw_time_of_pair (s n : Z) :
  0 <= s -> 0 <= n < 10 ^ 9 ->
  to_rmw_time (Duration_of_nanoseconds (s * 10 ^ 9 + n)) = Return (mk_rmw_time s n).
Proof.
  intros Hs Hn. unfold to_rmw_time, Duration_of_nanoseconds.
  destruct (Z.ltb_spec (s * 10 ^ 9 + n) 0) as [Hneg|_]; [lia|].
  change (RCL_S_TO_NS 1) with (10 ^ 9).
  f_equal. f_equal.
  - rewrite Z.div_add_l by lia. rewrite Z.div_small by lia. lia.
  - rewrite Z.add_comm, Z.mod_add by lia. apply Z.mod_small; lia.
Qed.

End Codec.

(** ** [apply_qos_override]: what it writes and what it leaves alone *)

Ltac unfold_apply :=
  unfold apply_qos_override, RCLCPP_DETAIL_QOS_POLICY_FROM_PARAMETER_STRING,
    QoS_avoid_ros_namespace_conventions, QoS_deadline, QoS_lifespan,
    QoS_liveliness_lease_duration, QoS_durability, QoS_history, QoS_liveliness,
    QoS_reliability, bind, lift, modify, throw, ret, inspect in *.

Ltac split_apply :=
  repeat match goal with
         | |- context [match ?v with ParameterValue_bool _ => _ | _ => _ end] =>
             destruct v; simpl
         | |- context [match to_rmw_time ?d with Return _ => _ | Throw _ => _ end] =>
             destruct (to_rmw_time d); simpl
         | |- context [if ?b then _ else _] => destruct b eqn:?; simpl
         end.

Section Apply.

Context {rmw : Rmw} {rclcpp : Rclcpp}.

(** A call that throws has written nothing. *)
Lemma apply_qos_override_throw (k : QosPolicyKind) (v : ParameterValue) (qos qos' : QoS)
    (e : exception) :
  apply_qos_override k v qos = (Throw e, qos') -> qos' = qos.
Proof.
  destruct k; unfold_apply; unfold get_bool, get_int64_t, get_string;
    split_apply; intros H; inversion H; reflexivity.
Qed.

(** A call for kind [k] leaves the slot of every other kind as it was. *)
Lemma apply_qos_override_frame (k k' : QosPolicyKind) (v : ParameterValue)
    (qos qos' : QoS) (r : result unit) :
  apply_qos_override k v qos = (r, qos') -> k' <> k ->
  policy_slot k' qos' = policy_slot k' qos.
Proof.
  intros H Hk.
  destruct k; unfold_apply; unfold get_bool, get_int64_t, get_string in H;
    revert H; split_apply; intros H; inversion H; subst;
    destruct k'; try reflexivity; congruence.
Qed.

End Apply.

(** ** The catalogs *)

(** C5. The publisher catalog has exactly nine kinds, without repetition,
    and they are the nine enumerators of [QosPolicyKind]; the subscription
    catalog has exactly eight kinds, without repetition, and they are the
    enumerators other than [Lifespan]. *)
Theorem catalog_sizes_and_members :
  (List.length (allowed_policies PublisherQosParametersTraits) = 9%nat /\
   NoDup (allowed_policies PublisherQosParametersTraits) /\
   forall k, In k (allowed_policies PublisherQosParametersTraits) <->
             is_enumerator k = true) /\
  (List.length (allowed_policies SubscriptionQosParametersTraits) = 8%nat /\
   NoDup (allowed_policies SubscriptionQosParametersTraits) /\
   forall k, In k (allowed_policies SubscriptionQosParametersTraits) <->
             (is_enumerator k = true /\ k <> Lifespan)).
Proof.
  split; (split; [reflexivity|split]).
  - repeat constructor; simpl; intuition discriminate.
  - intros k; split.
    + simpl; intros H; decompose sum H; subst; try reflexivity; contradiction.
    + destruct k; simpl; intros H; try discriminate; tauto.
  - repeat constructor; simpl; intuition discriminate.
  - intros k; split.
    + simpl; intros H; decompose sum H; subst;
        try (split; [reflexivity|discriminate]); contradiction.
    + destruct k; simpl; intros [H1 H2]; try discriminate; try tauto.
Qed.

Section CodecClaims.

Context {rmw : Rmw} {rclcpp : Rclcpp}.

(** ** Encoding the current value *)

(** C7. For a string-enum kind, when the forward lookup has no string for
    the value the profile holds, [get_default_qos_param_value] throws
    [std::invalid_argument] with a message that names the kind, and so
    returns no parameter value. *)
Theorem get_default_throws_on_unnamed_value (k : QosPolicyKind) (e : StringEnum)
    (qos : QoS) :
  string_enum k = Some e ->
  enum_to_str e (enum_field e qos) = None ->
  get_default_qos_param_value k qos =
    Throw (invalid_argument
             ("unknown " ++ qos_policy_kind_to_cstr k ++ " qos policy value: {"
              ++ null_insertion_text)) /\
  forall v, get_default_qos_param_value k qos <> Return v.
Proof.
  intros Hk Hnone.
  assert (get_default_qos_param_value k qos =
            Throw (invalid_argument
                     ("unknown " ++ qos_policy_kind_to_cstr k ++ " qos policy value: {"
                      ++ null_insertion_text))) as Hthrow.
  { destruct k; simpl in Hk; inversion Hk; subst e; simpl in Hnone;
      unfold get_default_qos_param_value, get_rmw_qos_profile;
      rewrite Hnone; unfold check_if_stringified_policy_is_null, insert_QosPolicyKind;
      simpl; rewrite append_assoc; reflexivity. }
  split; [exact Hthrow|].
  intros v Hv. rewrite Hthrow in Hv. discriminate.
Qed.

(** ** Applying a value of the wrong variant *)

(** C9. When the variant of the value is not the one the kind requires,
    [apply_qos_override] throws the type exception of [ParameterValue::get]
    and the profile is as it was, at that kind and everywhere else. *)
Theorem apply_rejects_wrong_variant (k : QosPolicyKind) (t : ParameterType)
    (v : ParameterValue) (qos : QoS) :
  required_type k = Some t ->
  get_type v <> t ->
  apply_qos_override k v qos = (Throw (ParameterTypeException t (get_type v)), qos) /\
  policy_slot k (snd (apply_qos_override k v qos)) = policy_slot k qos.
Proof.
  intros Hk Hv.
  assert (apply_qos_override k v qos =
            (Throw (ParameterTypeException t (get_type v)), qos)) as Hthrow.
  { destruct k; simpl in Hk; inversion Hk; subst t;
      destruct v; simpl in Hv; try congruence; reflexivity. }
  split; [exact Hthrow|]. now rewrite Hthrow.
Qed.

End CodecClaims.

Section RoundTrip.

Context {rmw : Rmw} {rclcpp : Rclcpp}.

(** ** Unknown strings *)

Lemma apply_unknown_string (k : QosPolicyKind) (e : StringEnum) (s : string) (qos : QoS) :
  string_enum k = Some e ->
  enum_from_str e (c_str s) = enum_UNKNOWN e ->
  apply_qos_override k (ParameterValue_string s) qos =
    (Throw (invalid_argument ("unknown qos policy " ++ enum_name e ++ " value: " ++ s)),
     qos).
Proof.
  intros Hk Hs.
  destruct k; simpl in Hk; inversion Hk; subst e; simpl in Hs;
    unfold_apply; simpl; rewrite Hs, Z.eqb_refl; reflexivity.
Qed.

(** ** Durations and depth *)

Lemma get_default_duration (k : QosPolicyKind) (field : QoS -> rmw_time_t) (qos : QoS) :
  duration_field k = Some field ->
  get_default_qos_param_value k qos =
    Return (ParameterValue_int64 (rmw_duration_to_int64_t (field qos))).
Proof.
  intros Hk. destruct k; simpl in Hk; inversion Hk; reflexivity.
Qed.

(** C8. The nanosecond count of a stored duration is not what
    [get_default_qos_param_value] returns once the seconds reach [2^31]:
    the cast of the seconds to [int32_t] in [rmw_duration_to_int64_t] drops
    their high bits.  The deadline of [9223372036] seconds and [854775807]
    nanoseconds has the count [2^63 - 1], which is a signed 64-bit value,
    and [633437444854775807] is returned instead.  The two directions
    disagree with each other as well: a [Deadline] override of
    [3 * 10^18] nanoseconds is accepted and stored as [3000000000]
    seconds, and that profile is then encoded as a negative count. *)
Theorem duration_default_truncates_seconds :
  deadline unbounded_deadline_profile = mk_rmw_time 9223372036 854775807 /\
  is_int64 (9223372036 * 10 ^ 9 + 854775807) /\
  get_default_qos_param_value Deadline unbounded_deadline_profile =
    Return (ParameterValue_int64 633437444854775807) /\
  get_default_qos_param_value Deadline unbounded_deadline_profile <>
    Return (ParameterValue_int64 (9223372036 * 10 ^ 9 + 854775807)) /\
  apply_qos_override Deadline (ParameterValue_int64 3000000000000000000)
    system_default_profile =
    (Return tt, set_deadline (mk_rmw_time 3000000000 0) system_default_profile) /\
  get_default_qos_param_value Deadline
    (set_deadline (mk_rmw_time 3000000000 0) system_default_profile) =
    Return (ParameterValue_int64 (-1294967296000000000)).
Proof.
  split; [reflexivity|].
  split; [unfold is_int64; lia|].
  split; [reflexivity|].
  split.
  - assert (forall a b : Z,
               Return (ParameterValue_int64 a) = Return (ParameterValue_int64 b) -> a = b)
      as Hinj by (intros a b H; now injection H).
    intros H. apply Hinj in H. revert H. apply Z.eqb_neq. reflexivity.
  - split; reflexivity.
Qed.

(** ** Round trip *)

Lemma has_name_true (to_str : Z -> option string) (v : Z) :
  has_name to_str v = true -> exists s, to_str v = Some s.
Proof.
  unfold has_name. destruct (to_str v) as [s|]; [eauto|discriminate].
Qed.

Lemma string_enum_round_trip (k : QosPolicyKind) (e : StringEnum) (p : QoS) :
  string_enum k = Some e ->
  inverse_lookup e ->
  has_name (enum_to_str e) (enum_field e p) = true ->
  exists s,
    get_default_qos_param_value k p = Return (ParameterValue_string (c_str s)) /\
    apply_qos_override k (ParameterValue_string (c_str s)) p = (Return tt, p).
Proof.
  intros Hk [Hinv Hunk] Hname.
  destruct (has_name_true _ _ Hname) as [s Hs].
  exists s.
  assert ((enum_UNKNOWN e =? enum_field e p) = false) as Hne.
  { apply Z.eqb_neq. intros Heq. rewrite <- Heq, Hunk in Hs. discriminate. }
  pose proof (Hinv _ _ Hs) as Hback.
  destruct k; simpl in Hk; inversion Hk; subst e; simpl in *;
    (split;
     [ unfold get_default_qos_param_value, get_rmw_qos_profile; rewrite Hs; reflexivity
     | unfold_apply; simpl; rewrite c_str_idempotent, Hback, Hne; now destruct p ]).
Qed.

Lemma duration_round_trip (k : QosPolicyKind) (field : QoS -> rmw_time_t) (p : QoS) :
  duration_field k = Some field ->
  0 <= sec (field p) < 2 ^ 31 -> 0 <= nsec (field p) < 10 ^ 9 ->
  apply_qos_override k
    (ParameterValue_int64 (sec (field p) * 10 ^ 9 + nsec (field p))) p = (Return tt, p).
Proof.
  intros Hk Hs Hn.
  destruct k; simpl in Hk; inversion Hk; subst field;
    unfold_apply; simpl;
    rewrite to_rmw_time_of_pair by lia; rewrite rmw_time_eta; now destruct p.
Qed.

(** C1 (as amended). For a kind of the publisher or of the subscription
    catalog and a valid profile whose fields are in the range of their
    types, encoding the value of the kind and applying it back succeeds and
    leaves the profile equal to itself at that kind, provided the lookup
    functions are inverse to each other and, for a duration kind, the stored
    duration has fewer than [2^31] seconds and fewer than [10^9]
    nanoseconds. *)
Theorem encode_then_apply_round_trips (k : QosPolicyKind) (p : QoS) :
  inverse_lookups ->
  In k (allowed_policies PublisherQosParametersTraits) \/
  In k (allowed_policies SubscriptionQosParametersTraits) ->
  well_typed p ->
  valid_profile p = true ->
  normalized_duration k p ->
  round_trips k p.
Proof.
  intros Hinv Hk (Hdepth & _) Hvalid Hnorm.
  unfold valid_profile in Hvalid.
  apply andb_prop in Hvalid as [Hvalid Hrel].
  apply andb_prop in Hvalid as [Hvalid Hliv].
  apply andb_prop in Hvalid as [Hdur Hhis].
  assert (forall e, string_enum k = Some e ->
                    has_name (enum_to_str e) (enum_field e p) = true ->
                    round_trips k p) as Henum.
  { intros e He Hname.
    destruct (string_enum_round_trip k e p He (Hinv k e He) Hname) as (s & Hget & Happ).
    exists (ParameterValue_string (c_str s)), p. auto. }
  assert (forall field, duration_field k = Some field -> round_trips k p) as Hduration.
  { intros field Hf. destruct (Hnorm field Hf) as [Hs Hn].
    exists (ParameterValue_int64 (sec (field p) * 10 ^ 9 + nsec (field p))), p.
    split; [|split; [|reflexivity]].
    - rewrite (get_default_duration k field p Hf).
      rewrite rmw_duration_to_int64_t_exact by lia. reflexivity.
    - now apply duration_round_trip. }
  destruct k.
  - exists (ParameterValue_bool (avoid_ros_namespace_conventions p)), p.
    repeat split. unfold_apply; simpl. now destruct p.
  - now apply (Hduration deadline).
  - now apply (Henum _ eq_refl).
  - now apply (Henum _ eq_refl).
  - exists (ParameterValue_int64 (static_cast_int64 (depth p))), p.
    repeat split. unfold_apply; simpl.
    rewrite size_t_of_int64_of_size_t by exact Hdepth. now destruct p.
  - now apply (Hduration lifespan).
  - now apply (Henum _ eq_refl).
  - now apply (Hduration liveliness_lease_duration).
  - now apply (Henum _ eq_refl).
  - simpl in Hk. intuition discriminate.
Qed.

End RoundTrip.

(** ** The declaration pass *)

Lemma count_remove_other (k k' : QosPolicyKind) (kinds : list QosPolicyKind) :
  k' <> k ->
  count (remove QosPolicyKind_eq_dec k kinds) k' = count kinds k'.
Proof.
  intros Hk. unfold count.
  induction kinds as [|x kinds IH]; simpl; [reflexivity|].
  destruct (QosPolicyKind_eq_dec k x) as [->|Hx]; simpl.
  - destruct (QosPolicyKind_eq_dec x k') as [->|_]; [congruence|exact IH].
  - destruct (QosPolicyKind_eq_dec x k'); now rewrite IH.
Qed.

Lemma count_zero_iff (k : QosPolicyKind) (kinds : list QosPolicyKind) :
  Nat.eqb (count kinds k) 0 = true <-> ~ In k kinds.
Proof.
  unfold count. rewrite Nat.eqb_eq. symmetry. apply count_occ_not_In.
Qed.

Section Pass.

Context {rmw : Rmw} {rclcpp : Rclcpp} {P : Type} {node : NodeParametersInterface P}.

Lemma refs_eta (w : Refs P) : mk_refs (ref_qos w) (ref_parameters w) (declared w) = w.
Proof. now destruct w. Qed.

Lemma param_name_eq (options : QosOverridingOptions) (topic_name : string)
    (traits : EntityQosParametersTraits) (k : QosPolicyKind) :
  param_prefix_of options topic_name traits ++ qos_policy_kind_to_cstr k =
  build_name topic_name (entity_type traits) (id options) k.
Proof.
  unfold param_prefix_of, build_name.
  destruct (id options) as [|c i]; simpl;
    repeat (rewrite append_assoc; simpl); reflexivity.
Qed.

Lemma param_description_eq (options : QosOverridingOptions) (topic_name : string)
    (traits : EntityQosParametersTraits) (k : QosPolicyKind) :
  "qos policy {" ++ qos_policy_kind_to_cstr k
    ++ param_description_suffix_of options topic_name traits =
  build_description topic_name (entity_type traits) (id options) k.
Proof.
  unfold param_description_suffix_of, build_description.
  destruct (id options) as [|c i]; simpl;
    repeat (rewrite append_assoc; simpl); reflexivity.
Qed.

Lemma for_each_app {St} (l1 l2 : list QosPolicyKind)
    (body : QosPolicyKind -> Stateful St unit) (s : St) :
  for_each (l1 ++ l2)%list body s = (for_each l1 body ;; for_each l2 body) s.
Proof.
  revert s. induction l1 as [|k l1 IH]; intros s; simpl.
  - unfold bind, ret. reflexivity.
  - unfold bind. destruct (body k s) as [[[]|e] s']; [|reflexivity].
    rewrite IH. reflexivity.
Qed.

(** A kind that was not requested is passed over. *)
Lemma declare_policy_not_requested (options : QosOverridingOptions)
    (prefix suffix : string) (k : QosPolicyKind) (w : Refs P) :
  ~ In k (policy_kinds options) ->
  declare_policy options prefix suffix k w = (Return tt, w).
Proof.
  intros Hk. unfold declare_policy.
  apply count_zero_iff in Hk. rewrite Hk. reflexivity.
Qed.

(** The three steps of the body for a requested kind. *)
Lemma declare_policy_requested (options : QosOverridingOptions)
    (prefix suffix : string) (k : QosPolicyKind) (w : Refs P) :
  In k (policy_kinds options) ->
  declare_policy options prefix suffix k w =
    match get_default_qos_param_value k (ref_qos w) with
    | Throw e => (Throw e, mk_refs (ref_qos w) (ref_parameters w) (declared w))
    | Return default =>
        let name := prefix ++ qos_policy_kind_to_cstr k in
        let descriptor :=
          mk_descriptor ("qos policy {" ++ qos_policy_kind_to_cstr k ++ suffix) true in
        let log := (declared w ++ [mk_declaration name default descriptor])%list in
        match declare_parameter name default descriptor (ref_parameters w) with
        | (Throw e, p) => (Throw e, mk_refs (ref_qos w) p log)
        | (Return value, p) =>
            let (r, q) := apply_qos_override k value (ref_qos w) in
            (r, mk_refs q p log)
        end
    end.
Proof.
  intros Hk. unfold declare_policy.
  destruct (Nat.eqb (count (policy_kinds options) k) 0) eqn:E.
  - apply count_zero_iff in E. contradiction.
  - simpl. unfold bind, on_qos, inspect, call_declare_parameter. simpl.
    destruct (get_default_qos_param_value k (ref_qos w)) as [default|e]; [|reflexivity].
    simpl.
    destruct (declare_parameter _ default _ (ref_parameters w)) as [[value|e] p];
      reflexivity.
Qed.

(** The body never touches the slot of another kind. *)
Lemma declare_policy_frame (options : QosOverridingOptions) (prefix suffix : string)
    (k k' : QosPolicyKind) (w w' : Refs P) (r : result unit) :
  declare_policy options prefix suffix k w = (r, w') ->
  k' <> k ->
  policy_slot k' (ref_qos w') = policy_slot k' (ref_qos w).
Proof.
  intros H Hk.
  destruct (in_dec QosPolicyKind_eq_dec k (policy_kinds options)) as [Hin|Hout].
  - rewrite declare_policy_requested in H by exact Hin.
    destruct (get_default_qos_param_value k (ref_qos w)) as [default|e];
      [|inversion H; reflexivity].
    cbv zeta in H.
    destruct (declare_parameter _ default _ (ref_parameters w)) as [[value|e] p];
      [|inversion H; reflexivity].
    destruct (apply_qos_override k value (ref_qos w)) as [r' q] eqn:Happly.
    inversion H; subst. simpl.
    exact (apply_qos_override_frame k k' value (ref_qos w) _ _ Happly Hk).
  - rewrite declare_policy_not_requested in H by exact Hout.
    inversion H; reflexivity.
Qed.

Lemma for_each_frame (options : QosOverridingOptions) (prefix suffix : string)
    (range : list QosPolicyKind) (k' : QosPolicyKind) (w w' : Refs P) (r : result unit) :
  for_each range (declare_policy options prefix suffix) w = (r, w') ->
  ~ In k' range ->
  policy_slot k' (ref_qos w') = policy_slot k' (ref_qos w).
Proof.
  revert w. induction range as [|k range IH]; intros w H Hk; simpl in H.
  - inversion H; reflexivity.
  - unfold bind in H.
    destruct (declare_policy options prefix suffix k w) as [[[]|e] w1] eqn:Hbody.
    + rewrite (IH w1 H) by (intros Hin; apply Hk; now right).
      apply (declare_policy_frame _ _ _ _ _ _ _ _ Hbody).
      intros ->. apply Hk. now left.
    + inversion H; subst.
      apply (declare_policy_frame _ _ _ _ _ _ _ _ Hbody).
      intros ->. apply Hk. now left.
Qed.

(** The pass depends on the requested kinds only through the kinds of the
    range it runs over. *)
Lemma for_each_requests (options : QosOverridingOptions) (kinds : list QosPolicyKind)
    (prefix suffix : string) (range : list QosPolicyKind) (w : Refs P) :
  (forall k, In k range ->
             count kinds k = count (policy_kinds options) k) ->
  for_each range (declare_policy (requests options kinds) prefix suffix) w =
  for_each range (declare_policy options prefix suffix) w.
Proof.
  revert w. induction range as [|k range IH]; intros w Hsame; simpl; [reflexivity|].
  unfold bind.
  assert (declare_policy (requests options kinds) prefix suffix k w =
          declare_policy options prefix suffix k w) as ->.
  { unfold declare_policy, requests. simpl.
    rewrite (Hsame k) by now left. reflexivity. }
  destruct (declare_policy options prefix suffix k w) as [[[]|e] w1]; [|reflexivity].
  apply IH. intros k' Hk'. apply Hsame. now right.
Qed.

(** A pass over kinds none of which was requested does nothing. *)
Lemma for_each_none_requested (options : QosOverridingOptions) (prefix suffix : string)
    (range : list QosPolicyKind) (w : Refs P) :
  (forall k, In k range -> ~ In k (policy_kinds options)) ->
  for_each range (declare_policy options prefix suffix) w = (Return tt, w).
Proof.
  induction range as [|k range IH]; intros Hnone; simpl; [reflexivity|].
  unfold bind. rewrite declare_policy_not_requested by (apply Hnone; now left).
  apply IH. intros k' Hk'. apply Hnone. now right.
Qed.

End Pass.

Section PassClaims.

Context {rmw : Rmw} {rclcpp : Rclcpp} {P : Type} {node : NodeParametersInterface P}.

(** ** Names of the declared parameters *)

Lemma for_each_declared_names (options : QosOverridingOptions) (prefix suffix : string)
    (range : list QosPolicyKind) (w w' : Refs P) (r : result unit) :
  for_each range (declare_policy options prefix suffix) w = (r, w') ->
  exists kinds rest,
    filter (fun k => negb (Nat.eqb (count (policy_kinds options) k) 0)) range
      = List.app kinds rest /\
    map declared_name (declared w') =
      List.app (map declared_name (declared w))
        (map (fun k => prefix ++ qos_policy_kind_to_cstr k) kinds) /\
    (r = Return tt -> rest = []).
Proof.
  set (requested := fun k => negb (Nat.eqb (count (policy_kinds options) k) 0)).
  revert w. induction range as [|k range IH]; intros w H; simpl in H.
  - inversion H; subst. exists [], []. simpl. rewrite app_nil_r. auto.
  - unfold bind in H. simpl filter.
    destruct (in_dec QosPolicyKind_eq_dec k (policy_kinds options)) as [Hin|Hout].
    + assert (requested k = true) as ->.
      { unfold requested.
        destruct (Nat.eqb (count (policy_kinds options) k) 0) eqn:E; [|reflexivity].
        apply count_zero_iff in E. contradiction. }
      rewrite declare_policy_requested in H by exact Hin.
      destruct (get_default_qos_param_value k (ref_qos w)) as [default|e].
      * cbv zeta in H.
        destruct (declare_parameter _ default _ (ref_parameters w)) as [[value|e] p].
        -- destruct (apply_qos_override k value (ref_qos w)) as [[[]|e] q].
           ++ destruct (IH _ H) as (kinds & rest & Hsplit & Hnames & Hdone).
              exists (k :: kinds), rest. simpl in *.
              rewrite Hsplit, Hnames, map_app, <- app_assoc. simpl. auto.
           ++ inversion H; subst. exists [k], (filter requested range). simpl.
              rewrite map_app. simpl. repeat split. discriminate.
        -- inversion H; subst. exists [k], (filter requested range). simpl.
           rewrite map_app. simpl. repeat split. discriminate.
      * inversion H; subst. exists [], (k :: filter requested range). simpl.
        rewrite app_nil_r. repeat split. discriminate.
    + assert (requested k = false) as ->.
      { unfold requested. apply count_zero_iff in Hout. now rewrite Hout. }
      rewrite declare_policy_not_requested in H by exact Hout.
      exact (IH _ H).
Qed.

Lemma validate_state (options : QosOverridingOptions) (w : Refs P) :
  snd (validate options w) = w.
Proof.
  unfold validate. destruct (validation_callback options) as [callback|]; [|reflexivity].
  now destruct (callback (ref_qos w)).
Qed.

Lemma declared_names (options : QosOverridingOptions) (topic_name : string)
    (traits : EntityQosParametersTraits) (w w' : Refs P) (r : result unit) :
  declare_qos_parameters options topic_name traits w = (r, w') ->
  exists kinds rest,
    eligible options traits = List.app kinds rest /\
    map declared_name (declared w') =
      List.app (map declared_name (declared w))
        (map (build_name topic_name (entity_type traits) (id options)) kinds) /\
    (r = Return tt -> rest = []).
Proof.
  unfold declare_qos_parameters, bind. intros H.
  destruct (for_each _ _ w) as [r1 w1] eqn:Hloop.
  destruct (for_each_declared_names _ _ _ _ _ _ _ Hloop)
    as (kinds & rest & Hsplit & Hnames & Hdone).
  exists kinds, rest. split; [exact Hsplit|].
  assert (w' = w1 /\ (r = Return tt -> r1 = Return tt)) as [-> Hr].
  { destruct r1 as [[]|e].
    - pose proof (validate_state options w1) as Hv. rewrite H in Hv. auto.
    - inversion H; subst. split; [reflexivity|discriminate]. }
  split; [|auto].
  rewrite Hnames. f_equal. apply map_ext. intros k. apply param_name_eq.
Qed.

(** A pass over a range in which one kind alone was requested is the body
    of the loop at that kind. *)
Lemma for_each_only (options : QosOverridingOptions) (prefix suffix : string)
    (before after : list QosPolicyKind) (k : QosPolicyKind) (w : Refs P) :
  (forall k', In k' before -> ~ In k' (policy_kinds options)) ->
  (forall k', In k' after -> ~ In k' (policy_kinds options)) ->
  for_each (List.app before (k :: after)) (declare_policy options prefix suffix) w =
  declare_policy options prefix suffix k w.
Proof.
  intros Hbefore Hafter.
  rewrite for_each_app. unfold bind.
  rewrite for_each_none_requested by exact Hbefore.
  simpl. unfold bind.
  destruct (declare_policy options prefix suffix k w) as [[[]|e] w1]; [|reflexivity].
  now apply for_each_none_requested.
Qed.

(** For a requested kind whose value can be encoded, the body calls
    [declare_parameter] once, whatever the node answers. *)
Lemma declare_policy_declares (options : QosOverridingOptions) (prefix suffix : string)
    (k : QosPolicyKind) (w : Refs P) (default : ParameterValue) :
  In k (policy_kinds options) ->
  get_default_qos_param_value k (ref_qos w) = Return default ->
  declared (snd (declare_policy options prefix suffix k w)) =
  List.app (declared w)
    [mk_declaration (prefix ++ qos_policy_kind_to_cstr k) default
       (mk_descriptor ("qos policy {" ++ qos_policy_kind_to_cstr k ++ suffix) true)].
Proof.
  intros Hk Hdefault.
  rewrite declare_policy_requested by exact Hk. rewrite Hdefault. cbv zeta.
  destruct (declare_parameter _ default _ (ref_parameters w)) as [[value|e] p];
    [|reflexivity].
  now destruct (apply_qos_override k value (ref_qos w)).
Qed.

Lemma depth_alone_declared (options : QosOverridingOptions) (topic_name : string)
    (parameters_interface : P) (qos : QoS) :
  policy_kinds options = [Depth] ->
  map declared_name
    (declared (snd (declare_publisher_qos_parameters options parameters_interface
                      topic_name qos))) =
  [build_name topic_name "publisher" (id options) Depth].
Proof.
  intros Hkinds.
  assert (forall k, k <> Depth -> ~ In k (policy_kinds options)) as Hother.
  { intros k Hk. rewrite Hkinds. simpl. intros [H|[]]. congruence. }
  assert (In Depth (policy_kinds options)) as Hdepth by (rewrite Hkinds; now left).
  unfold declare_publisher_qos_parameters, declare_qos_parameters, bind.
  change (allowed_policies PublisherQosParametersTraits)
    with (List.app [AvoidRosNamespaceConventions; Deadline; Durability; History]
            (Depth :: [Lifespan; Liveliness; LivelinessLeaseDuration; Reliability])).
  rewrite for_each_only
    by (intros k Hk; apply Hother; simpl in Hk; intuition (subst; discriminate)).
  match goal with
  | |- context [declare_policy options ?pre ?suf Depth ?w] =>
      pose proof (declare_policy_declares options pre suf Depth w _ Hdepth eq_refl) as Hlog;
      destruct (declare_policy options pre suf Depth w) as [[[]|e] w1]
  end; simpl in Hlog; [rewrite validate_state|simpl]; rewrite Hlog; simpl;
    rewrite param_name_eq; reflexivity.
Qed.

(** C2. Every parameter of a pass is declared under the name
    ["qos_overrides." + topic + "." + entity type + ("_" + id, when the id
    is not empty) + "." + stringified kind], for the eligible kinds in
    catalog order, all of them when the pass succeeds.  When [Depth] is
    stringified as ["depth"], a publisher pass on topic ["chatter"] that
    requests [Depth] declares ["qos_overrides.chatter.publisher.depth"] with
    an empty id and ["qos_overrides.chatter.publisher_sensor.depth"] with
    the id ["sensor"]. *)
Theorem declared_parameter_names :
  (forall topic tag id k,
      build_name topic tag id k =
        "qos_overrides." ++ topic ++ "." ++ tag
          ++ (if empty id then "" else "_" ++ id)
          ++ "." ++ qos_policy_kind_to_cstr k) /\
  (forall options topic_name traits (w w' : Refs P) r,
      declare_qos_parameters options topic_name traits w = (r, w') ->
      exists kinds rest,
        eligible options traits = List.app kinds rest /\
        map declared_name (declared w') =
          List.app (map declared_name (declared w))
            (map (build_name topic_name (entity_type traits) (id options)) kinds) /\
        (r = Return tt -> rest = [])) /\
  (qos_policy_kind_to_cstr Depth = "depth" ->
   forall (parameters_interface : P) qos callback,
     map declared_name
       (declared (snd (declare_publisher_qos_parameters
                         (mk_options "" [Depth] callback)
                         parameters_interface "chatter" qos))) =
       ["qos_overrides.chatter.publisher.depth"] /\
     map declared_name
       (declared (snd (declare_publisher_qos_parameters
                         (mk_options "sensor" [Depth] callback)
                         parameters_interface "chatter" qos))) =
       ["qos_overrides.chatter.publisher_sensor.depth"]).
Proof.
  split; [reflexivity|split].
  - intros options topic_name traits w w' r H.
    exact (declared_names options topic_name traits w w' r H).
  - intros Hdepth parameters_interface qos callback.
    split; rewrite depth_alone_declared by reflexivity;
      unfold build_name; rewrite Hdepth; reflexivity.
Qed.

(** ** Validation *)

Lemma declare_qos_parameters_without_callback (options : QosOverridingOptions)
    (topic_name : string) (traits : EntityQosParametersTraits) (w : Refs P) :
  declare_qos_parameters (without_callback options) topic_name traits w =
  for_each (allowed_policies traits)
    (declare_policy options (param_prefix_of options topic_name traits)
       (param_description_suffix_of options topic_name traits)) w.
Proof.
  unfold declare_qos_parameters, bind.
  change (declare_policy (without_callback options)
            (param_prefix_of (without_callback options) topic_name traits)
            (param_description_suffix_of (without_callback options) topic_name traits))
    with (declare_policy options (param_prefix_of options topic_name traits)
            (param_description_suffix_of options topic_name traits)).
  now destruct (for_each _ _ w) as [[[]|e] w1].
Qed.

(** C4. When the options carry a validation callback and the pass without
    the callback succeeds, leaving the profile and the node in some state,
    and the callback returns false on that profile, the call throws
    [InvalidQosOverridesException] with the message
    ["validation callback failed"], and the caller is left with that same
    state: what the pass wrote to the profile stays written. *)
Theorem validation_callback_failure (options : QosOverridingOptions)
    (topic_name : string) (traits : EntityQosParametersTraits)
    (callback : QoS -> bool) (w w' : Refs P) :
  validation_callback options = Some callback ->
  declare_qos_parameters (without_callback options) topic_name traits w
    = (Return tt, w') ->
  callback (ref_qos w') = false ->
  declare_qos_parameters options topic_name traits w =
    (Throw (InvalidQosOverridesException "validation callback failed"), w').
Proof.
  intros Hcallback Hpass Hfalse.
  rewrite declare_qos_parameters_without_callback in Hpass.
  unfold declare_qos_parameters, bind. rewrite Hpass.
  unfold validate. rewrite Hcallback, Hfalse. reflexivity.
Qed.

(** ** Kinds outside the catalog *)

(** C10. When no kind of the catalog was requested, the call declares
    nothing and leaves the profile and the node as they were; it returns
    when there is no callback or the callback accepts the unchanged
    profile, and throws [InvalidQosOverridesException] when the callback
    rejects it. *)
Theorem nothing_eligible (options : QosOverridingOptions) (topic_name : string)
    (traits : EntityQosParametersTraits) (w : Refs P) :
  (forall k, In k (allowed_policies traits) -> ~ In k (policy_kinds options)) ->
  declare_qos_parameters options topic_name traits w =
    (match validation_callback options with
     | Some callback =>
         if callback (ref_qos w) then Return tt
         else Throw (InvalidQosOverridesException "validation callback failed")
     | None => Return tt
     end, w).
Proof.
  intros Hnone. unfold declare_qos_parameters, bind.
  rewrite for_each_none_requested by exact Hnone.
  unfold validate. destruct (validation_callback options) as [callback|]; [|reflexivity].
  now destruct (callback (ref_qos w)).
Qed.

(** C6. A requested kind that is not in the catalog of the entity is
    passed over: the call behaves in every respect (outcome, profile, node,
    declarations) as if the kind had not been requested, the kind is not
    among those a parameter is declared for, and the profile is not
    modified at that kind. *)
Theorem kind_outside_catalog_is_skipped (options : QosOverridingOptions)
    (topic_name : string) (traits : EntityQosParametersTraits)
    (k : QosPolicyKind) (w : Refs P) :
  In k (policy_kinds options) ->
  ~ In k (allowed_policies traits) ->
  declare_qos_parameters options topic_name traits w =
    declare_qos_parameters
      (requests options (remove QosPolicyKind_eq_dec k (policy_kinds options)))
      topic_name traits w /\
  (exists kinds,
      ~ In k kinds /\
      map declared_name (declared (snd (declare_qos_parameters options topic_name traits w))) =
        List.app (map declared_name (declared w))
          (map (build_name topic_name (entity_type traits) (id options)) kinds)) /\
  policy_slot k (ref_qos (snd (declare_qos_parameters options topic_name traits w))) =
    policy_slot k (ref_qos w).
Proof.
  intros _ Hout. split; [|split].
  - unfold declare_qos_parameters, bind.
    change (param_prefix_of (requests options _) topic_name traits)
      with (param_prefix_of options topic_name traits).
    change (param_description_suffix_of (requests options _) topic_name traits)
      with (param_description_suffix_of options topic_name traits).
    rewrite for_each_requests; [reflexivity|].
    intros k' Hk'. apply count_remove_other. intros ->. contradiction.
  - destruct (declare_qos_parameters options topic_name traits w) as [r w'] eqn:H.
    destruct (declared_names _ _ _ _ _ _ H) as (kinds & rest & Hsplit & Hnames & _).
    exists kinds. split; [|exact Hnames].
    intros Hin. apply Hout.
    assert (In k (eligible options traits)) as Helig
      by (rewrite Hsplit; apply in_or_app; now left).
    unfold eligible in Helig. apply filter_In in Helig. tauto.
  - unfold declare_qos_parameters, bind.
    destruct (for_each _ _ w) as [[[]|e] w1] eqn:Hloop.
    + rewrite validate_state. exact (for_each_frame _ _ _ _ _ _ _ _ Hloop Hout).
    + exact (for_each_frame _ _ _ _ _ _ _ _ Hloop Hout).
Qed.

(** ** No rollback *)

(** The first failure ends the pass and leaves what was written before. *)
Lemma pass_stops_at_first_throw (options : QosOverridingOptions) (topic_name : string)
    (traits : EntityQosParametersTraits) (before after : list QosPolicyKind)
    (k : QosPolicyKind) (w w1 w2 : Refs P) (e : exception) :
  allowed_policies traits = List.app before (k :: after) ->
  declare_qos_parameters (without_callback options) topic_name
    (mk_traits (entity_type traits) before) w = (Return tt, w1) ->
  declare_policy options (param_prefix_of options topic_name traits)
    (param_description_suffix_of options topic_name traits) k w1 = (Throw e, w2) ->
  declare_qos_parameters options topic_name traits w = (Throw e, w2).
Proof.
  intros Hsplit Hbefore Hbody.
  rewrite declare_qos_parameters_without_callback in Hbefore. simpl in Hbefore.
  change (param_prefix_of options topic_name (mk_traits (entity_type traits) before))
    with (param_prefix_of options topic_name traits) in Hbefore.
  change (param_description_suffix_of options topic_name
            (mk_traits (entity_type traits) before))
    with (param_description_suffix_of options topic_name traits) in Hbefore.
  unfold declare_qos_parameters, bind.
  rewrite Hsplit, for_each_app. unfold bind. rewrite Hbefore.
  simpl. unfold bind. rewrite Hbody. reflexivity.
Qed.

(** C3. For a string-enum kind and a string that the reverse lookup of the
    kind maps to its unknown enumerator, [apply_qos_override] throws
    [std::invalid_argument] with the message
    ["unknown qos policy <kind> value: <string>"] and leaves the profile as
    it was.  Inside a pass nothing is rolled back: when the pass over the
    earlier kinds of the catalog has succeeded and the node answers such a
    string for the kind, the call throws that exception and the profile is
    the one the earlier kinds left. *)
Theorem unknown_string_is_rejected :
  (forall k e s qos,
      string_enum k = Some e ->
      enum_from_str e (c_str s) = enum_UNKNOWN e ->
      apply_qos_override k (ParameterValue_string s) qos =
        (Throw (invalid_argument ("unknown qos policy " ++ enum_name e ++ " value: " ++ s)),
         qos) /\
      policy_slot k (snd (apply_qos_override k (ParameterValue_string s) qos)) =
        policy_slot k qos) /\
  (forall options topic_name traits before after k e s default (w w1 : Refs P) p,
      allowed_policies traits = List.app before (k :: after) ->
      string_enum k = Some e ->
      In k (policy_kinds options) ->
      declare_qos_parameters (without_callback options) topic_name
        (mk_traits (entity_type traits) before) w = (Return tt, w1) ->
      get_default_qos_param_value k (ref_qos w1) = Return default ->
      declare_parameter
        (build_name topic_name (entity_type traits) (id options) k) default
        (mk_descriptor
           (build_description topic_name (entity_type traits) (id options) k) true)
        (ref_parameters w1) = (Return (ParameterValue_string s), p) ->
      enum_from_str e (c_str s) = enum_UNKNOWN e ->
      exists w2,
        declare_qos_parameters options topic_name traits w =
          (Throw (invalid_argument
                    ("unknown qos policy " ++ enum_name e ++ " value: " ++ s)), w2) /\
        ref_qos w2 = ref_qos w1 /\ ref_parameters w2 = p).
Proof.
  split.
  - intros k e s qos Hk Hs.
    rewrite (apply_unknown_string k e s qos Hk Hs). split; reflexivity.
  - intros options topic_name traits before after k e s default w w1 p
      Hsplit Hk Hreq Hbefore Hdefault Hnode Hs.
    eexists. split; [|split].
    + apply (pass_stops_at_first_throw options topic_name traits before after k w w1 _ _
               Hsplit Hbefore).
      rewrite declare_policy_requested by exact Hreq.
      rewrite Hdefault. cbv zeta.
      rewrite param_name_eq, param_description_eq, Hnode.
      rewrite (apply_unknown_string k e s (ref_qos w1) Hk Hs). reflexivity.
    + reflexivity.
    + reflexivity.
Qed.

End PassClaims.

(** * The properties at concrete inputs *)

Lemma rmw_tables_inverse : inverse_lookups (rmw := rmw_tables).
Proof.
  intros k e Hk.
  destruct k; simpl in Hk; inversion Hk; subst e; (split; [|reflexivity]);
    intros v s; cbn [enum_to_str enum_from_str];
    unfold named, durability_names, history_names, liveliness_names,
      reliability_names;
    cbn [find fst snd];
    repeat match goal with
           | |- context [?a =? v] =>
               destruct (Z.eqb_spec a v); [subst v; intros [= <-]; reflexivity|]
           end;
    discriminate.
Qed.

Section Instances.

#[local] Existing Instance rmw_tables.
#[local] Existing Instance rclcpp_parts.
#[local] Existing Instance Node_parameters.

(** The round trip of C1, at the deadline and the reliability of the
    sensor-data profile. *)
Lemma encode_then_apply_round_trips_witness :
  round_trips Deadline sensor_data_profile /\
  round_trips Reliability sensor_data_profile.
Proof.
  split.
  - apply (encode_then_apply_round_trips Deadline sensor_data_profile).
    + exact rmw_tables_inverse.
    + left. simpl. tauto.
    + unfold well_typed, is_rmw_time, is_uint64. simpl. lia.
    + reflexivity.
    + intros field [= <-]. simpl. lia.
  - apply (encode_then_apply_round_trips Reliability sensor_data_profile).
    + exact rmw_tables_inverse.
    + right. simpl. tauto.
    + unfold well_typed, is_rmw_time, is_uint64. simpl. lia.
    + reflexivity.
    + intros field Hfield. discriminate Hfield.
Defined.

(** The round trip of C1 as the claim states it fails.  [Deadline] is in the
    publisher catalog, the two profiles are valid and their fields are in
    range, and yet the deadline read back after encoding and applying is not
    the one the profile held: [9223372036] seconds come back as
    [633437444], and [1500000000] nanoseconds come back as one second and
    [500000000] nanoseconds. *)
Lemma deadline_does_not_round_trip :
  In Deadline (allowed_policies PublisherQosParametersTraits) /\
  (valid_profile unbounded_deadline_profile = true /\
   well_typed unbounded_deadline_profile /\
   ~ round_trips Deadline unbounded_deadline_profile) /\
  (valid_profile unnormalized_deadline_profile = true /\
   well_typed unnormalized_deadline_profile /\
   ~ round_trips Deadline unnormalized_deadline_profile).
Proof.
  split; [simpl; tauto|].
  split; (split; [reflexivity|split]);
    try (unfold well_typed, is_rmw_time, is_uint64; simpl; lia);
    intros (v & p' & Hget & Happly & Hslot);
    vm_compute in Hget; inversion Hget; subst v;
    vm_compute in Happly; inversion Happly; subst p';
    vm_compute in Hslot; discriminate Hslot.
Qed.

Lemma get_default_throws_on_unnamed_value_witness :
  exists e,
    string_enum Durability = Some e /\
    enum_to_str e (enum_field e unknown_durability_profile) = None /\
    get_default_qos_param_value Durability unknown_durability_profile =
      Throw (invalid_argument "unknown durability qos policy value: {").
Proof.
  eexists. split; [reflexivity|]. split; [reflexivity|].
  refine (proj1 (get_default_throws_on_unnamed_value Durability _
                   unknown_durability_profile eq_refl _)).
  reflexivity.
Defined.

Lemma apply_rejects_wrong_variant_witness :
  required_type Depth = Some PARAMETER_INTEGER /\
  get_type (ParameterValue_string "five") <> PARAMETER_INTEGER /\
  apply_qos_override Depth (ParameterValue_string "five") sensor_data_profile =
    (Throw (ParameterTypeException PARAMETER_INTEGER PARAMETER_STRING),
     sensor_data_profile).
Proof.
  split; [reflexivity|]. split; [simpl; discriminate|].
  refine (proj1 (apply_rejects_wrong_variant Depth PARAMETER_INTEGER
                   (ParameterValue_string "five") sensor_data_profile eq_refl _)).
  simpl. discriminate.
Defined.

Lemma declared_parameter_names_witness :
  qos_policy_kind_to_cstr Depth = "depth" /\
  map declared_name
    (declared (snd (declare_publisher_qos_parameters (mk_options "" [Depth] None)
                      (node_with []) "chatter" sensor_data_profile))) =
    ["qos_overrides.chatter.publisher.depth"] /\
  map declared_name
    (declared (snd (declare_publisher_qos_parameters (mk_options "sensor" [Depth] None)
                      (node_with depth_override) "chatter" sensor_data_profile))) =
    ["qos_overrides.chatter.publisher_sensor.depth"] /\
  exists kinds rest,
    eligible (sensor_options None) PublisherQosParametersTraits = List.app kinds rest /\
    map declared_name
      (declared (snd (declare_qos_parameters (sensor_options None) "chatter"
                        PublisherQosParametersTraits
                        (start sensor_data_profile (node_with depth_override))))) =
      List.app []
        (map (build_name "chatter" "publisher" "sensor") kinds) /\
    (Return tt = Return tt -> rest = []).
Proof.
  pose proof (declared_parameter_names (rmw := rmw_tables) (rclcpp := rclcpp_parts)
                (P := Node) (node := Node_parameters))
    as (_ & Hpass & Hexamples).
  split; [reflexivity|].
  split; [exact (proj1 (Hexamples eq_refl (node_with []) sensor_data_profile None))|].
  split;
    [exact (proj2 (Hexamples eq_refl (node_with depth_override) sensor_data_profile None))|].
  refine (Hpass (sensor_options None) "chatter" PublisherQosParametersTraits
            (start sensor_data_profile (node_with depth_override)) _ (Return tt) _).
  vm_compute. reflexivity.
Defined.

Lemma validation_callback_failure_witness :
  exists w',
    validation_callback (sensor_options (Some shallow)) = Some shallow /\
    declare_qos_parameters (without_callback (sensor_options (Some shallow))) "chatter"
      PublisherQosParametersTraits
      (start system_default_profile (node_with depth_override)) = (Return tt, w') /\
    shallow (ref_qos w') = false /\
    depth system_default_profile = 0 /\
    depth (ref_qos w') = 5 /\
    declare_qos_parameters (sensor_options (Some shallow)) "chatter"
      PublisherQosParametersTraits
      (start system_default_profile (node_with depth_override)) =
      (Throw (InvalidQosOverridesException "validation callback failed"), w').
Proof.
  eexists.
  split; [reflexivity|].
  split; [vm_compute; reflexivity|].
  split; [reflexivity|].
  split; [reflexivity|].
  split; [reflexivity|].
  apply (validation_callback_failure (sensor_options (Some shallow)) "chatter"
           PublisherQosParametersTraits shallow
           (start system_default_profile (node_with depth_override))).
  - reflexivity.
  - vm_compute. reflexivity.
  - reflexivity.
Defined.

Lemma nothing_eligible_witness :
  (forall k, In k (allowed_policies SubscriptionQosParametersTraits) ->
             ~ In k (policy_kinds (mk_options "" [Lifespan] (Some shallow)))) /\
  declare_qos_parameters (mk_options "" [Lifespan] (Some shallow)) "chatter"
    SubscriptionQosParametersTraits
    (start sensor_data_profile (node_with [])) =
    (Throw (InvalidQosOverridesException "validation callback failed"),
     start sensor_data_profile (node_with [])).
Proof.
  assert (forall k, In k (allowed_policies SubscriptionQosParametersTraits) ->
                    ~ In k (policy_kinds (mk_options "" [Lifespan] (Some shallow))))
    as Hnone.
  { intros k Hk [Hl|[]]. subst k. simpl in Hk. intuition discriminate. }
  split; [exact Hnone|].
  apply (nothing_eligible (mk_options "" [Lifespan] (Some shallow)) "chatter"
           SubscriptionQosParametersTraits (start sensor_data_profile (node_with []))
           Hnone).
Defined.

Lemma kind_outside_catalog_is_skipped_witness :
  In Lifespan (policy_kinds (mk_options "" [Lifespan; Depth] None)) /\
  ~ In Lifespan (allowed_policies SubscriptionQosParametersTraits) /\
  declare_qos_parameters (mk_options "" [Lifespan; Depth] None) "chatter"
    SubscriptionQosParametersTraits (start sensor_data_profile (node_with [])) =
  declare_qos_parameters (mk_options "" [Depth] None) "chatter"
    SubscriptionQosParametersTraits (start sensor_data_profile (node_with [])) /\
  policy_slot Lifespan
    (ref_qos (snd (declare_qos_parameters (mk_options "" [Lifespan; Depth] None) "chatter"
                     SubscriptionQosParametersTraits
                     (start sensor_data_profile (node_with []))))) =
    policy_slot Lifespan sensor_data_profile.
Proof.
  assert (~ In Lifespan (allowed_policies SubscriptionQosParametersTraits)) as Hout
    by (simpl; intuition discriminate).
  assert (In Lifespan (policy_kinds (mk_options "" [Lifespan; Depth] None))) as Hin
    by (simpl; tauto).
  split; [exact Hin|]. split; [exact Hout|].
  pose proof (kind_outside_catalog_is_skipped (mk_options "" [Lifespan; Depth] None)
                "chatter" SubscriptionQosParametersTraits Lifespan
                (start sensor_data_profile (node_with [])) Hin Hout)
    as (Hsame & _ & Hslot).
  split; [exact Hsame|exact Hslot].
Defined.

Lemma unknown_string_is_rejected_witness :
  (exists e,
      string_enum Reliability = Some e /\
      enum_from_str e (c_str "not-a-real-value") = enum_UNKNOWN e /\
      apply_qos_override Reliability (ParameterValue_string "not-a-real-value")
        sensor_data_profile =
        (Throw (invalid_argument "unknown qos policy reliability value: not-a-real-value"),
         sensor_data_profile)) /\
  (exists w2,
      declare_qos_parameters (sensor_options None) "chatter" PublisherQosParametersTraits
        (start system_default_profile (node_with bad_reliability_override)) =
        (Throw (invalid_argument "unknown qos policy reliability value: not-a-real-value"),
         w2) /\
      depth system_default_profile = 0 /\
      depth (ref_qos w2) = 5 /\
      reliability (ref_qos w2) = reliability system_default_profile).
Proof.
  split.
  - eexists. split; [reflexivity|]. split; [reflexivity|].
    refine (proj1 (proj1 unknown_string_is_rejected Reliability _ "not-a-real-value"
                     sensor_data_profile eq_refl _)).
    reflexivity.
  - destruct (proj2 unknown_string_is_rejected (sensor_options None) "chatter"
                PublisherQosParametersTraits
                [AvoidRosNamespaceConventions; Deadline; Durability; History; Depth;
                 Lifespan; Liveliness; LivelinessLeaseDuration]
                [] Reliability _ "not-a-real-value"
                (ParameterValue_string "system_default")
                (start system_default_profile (node_with bad_reliability_override))
                (mk_refs (set_depth 5 system_default_profile)
                   (mk_node bad_reliability_override
                      [("qos_overrides.chatter.publisher_sensor.depth",
                        ParameterValue_int64 5)])
                   [mk_declaration "qos_overrides.chatter.publisher_sensor.depth"
                      (ParameterValue_int64 0)
                      (mk_descriptor
                         "qos policy {depth} for publisher {chatter} with id {sensor}"
                         true)])
                _ eq_refl eq_refl
                ltac:(simpl; tauto) eq_refl eq_refl eq_refl eq_refl)
      as (w2 & Hrun & Hqos & _).
    exists w2. split; [exact Hrun|]. rewrite Hqos. repeat split.
Defined.

End Instances.

(** * Further properties of the codec *)

Lemma int64_of_size_t_of_int64 (v : Z) :
  is_int64 v -> static_cast_int64 (static_cast_size_t v) = v.
Proof.
  unfold is_int64, static_cast_int64, static_cast_size_t. intros Hv.
  destruct (Z_lt_ge_dec v 0) as [Hneg|Hpos].
  - replace v with (v + 2 ^ 64 + (-1) * 2 ^ 64) at 1 by lia.
    rewrite Z.mod_add by lia.
    rewrite (Z.mod_small (v + 2 ^ 64)) by lia.
    replace (v + 2 ^ 64 + 2 ^ 63) with (v + 2 ^ 63 + 1 * 2 ^ 64) by lia.
    rewrite Z.mod_add by lia.
    rewrite Z.mod_small by lia. lia.
  - rewrite (Z.mod_small v) by lia.
    rewrite Z.mod_small by lia. lia.
Qed.

Lemma size_t_of_int64 (v : Z) :
  is_int64 v -> static_cast_size_t v = if v <? 0 then v + 2 ^ 64 else v.
Proof.
  unfold is_int64, static_cast_size_t. intros Hv.
  destruct (Z.ltb_spec v 0) as [Hneg|Hpos].
  - replace v with (v + 2 ^ 64 + (-1) * 2 ^ 64) at 1 by lia.
    rewrite Z.mod_add by lia. apply Z.mod_small. lia.
  - apply Z.mod_small. lia.
Qed.

(** A profile is determined by its nine slots. *)
Lemma profile_ext (q1 q2 : QoS) :
  (forall k, policy_slot k q1 = policy_slot k q2) -> q1 = q2.
Proof.
  intros H. destruct q1, q2.
  generalize (H AvoidRosNamespaceConventions) (H Deadline) (H Durability) (H History)
    (H Depth) (H Lifespan) (H Liveliness) (H LivelinessLeaseDuration) (H Reliability).
  simpl. intros. congruence.
Qed.

Section CodecMore.

Context {rmw : Rmw} {rclcpp : Rclcpp}.

(** Encoding a kind reads the slot of that kind and nothing else. *)
Lemma get_default_reads_slot (k : QosPolicyKind) (q1 q2 : QoS) :
  policy_slot k q1 = policy_slot k q2 ->
  get_default_qos_param_value k q1 = get_default_qos_param_value k q2.
Proof.
  destruct k; simpl; intros H; try reflexivity; injection H as H;
    unfold get_default_qos_param_value, get_rmw_qos_profile; now rewrite H.
Qed.

(** Whether an override is accepted, and the value it writes, do not depend
    on the profile it is applied to. *)
Lemma apply_qos_override_independent (k : QosPolicyKind) (v : ParameterValue)
    (q q1 : QoS) :
  apply_qos_override k v q = (Return tt, q1) ->
  forall q0, exists q0',
    apply_qos_override k v q0 = (Return tt, q0') /\
    policy_slot k q0' = policy_slot k q1.
Proof.
  intros H q0. revert H.
  destruct k; unfold_apply; unfold get_bool, get_int64_t, get_string;
    split_apply; intros H; inversion H; subst;
    eexists; split; reflexivity.
Qed.

End CodecMore.

Section CodecExtras.

Context {rmw : Rmw} {rclcpp : Rclcpp}.

(** X1. An override writes the slot of its own kind only: the slot of every
    other kind is as before, whatever the outcome, and a call that throws
    leaves the whole profile as it was. *)
Theorem override_touches_only_its_kind (k : QosPolicyKind) (v : ParameterValue)
    (q q' : QoS) (r : result unit) :
  apply_qos_override k v q = (r, q') ->
  (forall k', k' <> k -> policy_slot k' q' = policy_slot k' q) /\
  (forall e, r = Throw e -> q' = q).
Proof.
  intros H. split.
  - intros k' Hk'. exact (apply_qos_override_frame k k' v q q' r H Hk').
  - intros e ->. exact (apply_qos_override_throw k v q q' e H).
Qed.

(** X2. Overrides compose as writes to independent slots: of two accepted
    overrides of one kind the later one wins, and accepted overrides of two
    different kinds give the same profile in either order. *)
Theorem overrides_compose :
  (forall k v1 v2 q q1 q2,
      apply_qos_override k v1 q = (Return tt, q1) ->
      apply_qos_override k v2 q = (Return tt, q2) ->
      apply_qos_override k v2 q1 = (Return tt, q2)) /\
  (forall k k' v v' q q1 q12,
      k <> k' ->
      apply_qos_override k v q = (Return tt, q1) ->
      apply_qos_override k' v' q1 = (Return tt, q12) ->
      exists q2,
        apply_qos_override k' v' q = (Return tt, q2) /\
        apply_qos_override k v q2 = (Return tt, q12)).
Proof.
  split.
  - intros k v1 v2 q q1 q2 H1 H2.
    destruct (apply_qos_override_independent k v2 q q2 H2 q1) as (q' & Ha & Hs).
    rewrite Ha. f_equal. apply profile_ext. intros k0.
    destruct (QosPolicyKind_eq_dec k0 k) as [->|Hne]; [exact Hs|].
    rewrite (apply_qos_override_frame _ _ _ _ _ _ Ha Hne).
    rewrite (apply_qos_override_frame _ _ _ _ _ _ H1 Hne).
    symmetry. exact (apply_qos_override_frame _ _ _ _ _ _ H2 Hne).
  - intros k k' v v' q q1 q12 Hkk H1 H12.
    destruct (apply_qos_override_independent k' v' q1 q12 H12 q) as (q2 & Ha2 & Hs2).
    destruct (apply_qos_override_independent k v q q1 H1 q2) as (q21 & Ha21 & Hs21).
    exists q2. split; [exact Ha2|]. rewrite Ha21. f_equal.
    apply profile_ext. intros k0.
    destruct (QosPolicyKind_eq_dec k0 k) as [->|Hne].
    + rewrite Hs21. symmetry.
      exact (apply_qos_override_frame _ _ _ _ _ _ H12 Hkk).
    + rewrite (apply_qos_override_frame _ _ _ _ _ _ Ha21 Hne).
      destruct (QosPolicyKind_eq_dec k0 k') as [->|Hne']; [exact Hs2|].
      rewrite (apply_qos_override_frame _ _ _ _ _ _ Ha2 Hne').
      rewrite (apply_qos_override_frame _ _ _ _ _ _ H12 Hne').
      symmetry. exact (apply_qos_override_frame _ _ _ _ _ _ H1 Hne).
Qed.

(** X3. An accepted override is read back as the default: any int64 depth,
    also a negative one; a duration of at least zero and less than
    [2^31 * 10^9] nanoseconds, which is stored as its quotient and remainder
    by [10^9]; any boolean. *)
Theorem override_reads_back :
  (forall v q,
      is_int64 v ->
      exists q',
        apply_qos_override Depth (ParameterValue_int64 v) q = (Return tt, q') /\
        get_default_qos_param_value Depth q' = Return (ParameterValue_int64 v)) /\
  (forall k field v q,
      duration_field k = Some field ->
      0 <= v < 2 ^ 31 * 10 ^ 9 ->
      exists q',
        apply_qos_override k (ParameterValue_int64 v) q = (Return tt, q') /\
        field q' = mk_rmw_time (v / 10 ^ 9) (v mod 10 ^ 9) /\
        get_default_qos_param_value k q' = Return (ParameterValue_int64 v)) /\
  (forall b q,
      exists q',
        apply_qos_override AvoidRosNamespaceConventions (ParameterValue_bool b) q
          = (Return tt, q') /\
        get_default_qos_param_value AvoidRosNamespaceConventions q'
          = Return (ParameterValue_bool b)).
Proof.
  split; [|split].
  - intros v q Hv. eexists. split; [reflexivity|].
    simpl. now rewrite int64_of_size_t_of_int64.
  - intros k field v q Hk Hv.
    assert (to_rmw_time (Duration_of_nanoseconds v)
            = Return (mk_rmw_time (v / 10 ^ 9) (v mod 10 ^ 9))) as Htime.
    { unfold to_rmw_time, Duration_of_nanoseconds.
      destruct (Z.ltb_spec v 0) as [Hneg|_]; [lia|reflexivity]. }
    assert (rmw_duration_to_int64_t (mk_rmw_time (v / 10 ^ 9) (v mod 10 ^ 9)) = v)
      as Hback.
    { pose proof (Z.mod_pos_bound v (10 ^ 9) ltac:(lia)) as Hmod.
      rewrite rmw_duration_to_int64_t_exact; simpl sec; simpl nsec.
      - rewrite Z.mul_comm. symmetry. apply Z.div_mod. lia.
      - split; [apply Z.div_pos; lia|apply Z.div_lt_upper_bound; lia].
      - lia. }
    assert (exists q',
               apply_qos_override k (ParameterValue_int64 v) q = (Return tt, q') /\
               field q' = mk_rmw_time (v / 10 ^ 9) (v mod 10 ^ 9))
      as (q' & Happly & Hfield).
    { destruct k; simpl in Hk; inversion Hk; subst field;
        unfold_apply; simpl; rewrite Htime; simpl;
        eexists; split; reflexivity. }
    exists q'. split; [exact Happly|split; [exact Hfield|]].
    rewrite (get_default_duration k field q' Hk), Hfield, Hback. reflexivity.
  - intros b q. eexists. split; reflexivity.
Qed.

(** X4. A depth override is not checked against any bound: every int64
    value is accepted and stored converted to [size_t], a negative one as
    itself plus [2^64]. *)
Theorem depth_override_wraps (v : Z) (q : QoS) :
  is_int64 v ->
  apply_qos_override Depth (ParameterValue_int64 v) q =
    (Return tt, set_depth (if v <? 0 then v + 2 ^ 64 else v) q) /\
  is_uint64 (depth (snd (apply_qos_override Depth (ParameterValue_int64 v) q))).
Proof.
  intros Hv. split.
  - unfold_apply. simpl. now rewrite size_t_of_int64.
  - simpl. unfold is_uint64, static_cast_size_t. apply Z.mod_pos_bound. lia.
Qed.

(** X5. The default of a kind always has the variant that the kind requires
    of an override, and for the kinds that are not string enumerations
    encoding never fails. *)
Theorem default_has_required_variant (k : QosPolicyKind) (q : QoS) :
  (forall v, get_default_qos_param_value k q = Return v ->
             required_type k = Some (get_type v)) /\
  (forall t, required_type k = Some t -> t <> PARAMETER_STRING ->
             exists v, get_default_qos_param_value k q = Return v /\ get_type v = t).
Proof.
  split.
  - intros v.
    destruct k; unfold get_default_qos_param_value, get_rmw_qos_profile;
      try (intros H; inversion H; reflexivity);
      match goal with
      | |- context [check_if_stringified_policy_is_null ?o _] => destruct o
      end; simpl; intros H; inversion H; reflexivity.
  - intros t Ht Hnot.
    destruct k; simpl in Ht; inversion Ht; subst t; try congruence;
      eexists; split; reflexivity.
Qed.

(** X6. For a string-enum kind an override string is accepted exactly when
    the reverse lookup of its characters up to the first NUL is not the
    unknown enumerator, and what is then written is the enumerator the
    lookup returned. *)
Theorem string_override_accepted_iff (k : QosPolicyKind) (e : StringEnum)
    (s : string) (q : QoS) :
  string_enum k = Some e ->
  (enum_from_str e (c_str s) <> enum_UNKNOWN e <->
   exists q', apply_qos_override k (ParameterValue_string s) q = (Return tt, q')) /\
  (forall q', apply_qos_override k (ParameterValue_string s) q = (Return tt, q') ->
              policy_slot k q' = Some (enum_value (enum_from_str e (c_str s)))).
Proof.
  intros Hk.
  destruct k; simpl in Hk; inversion Hk; subst e; simpl;
    unfold_apply; simpl;
    match goal with
    | |- context [?u =? ?x] => destruct (Z.eqb_spec u x) as [Heq|Hne]
    end;
    (split; [split|]);
    try (intros H; congruence);
    try (intros [q' H]; discriminate H);
    try (intros q' H; discriminate H);
    try (intros _; eexists; reflexivity);
    try (intros q' H; inversion H; reflexivity).
Qed.

End CodecExtras.

(** * Further properties of the declaration pass *)

Lemma append_cancel_l (s a b : string) : s ++ a = s ++ b -> a = b.
Proof.
  induction s as [|c s IH]; simpl; intros H; [exact H|].
  injection H as H. exact (IH H).
Qed.

Lemma requested_iff (kinds : list QosPolicyKind) (k : QosPolicyKind) :
  negb (Nat.eqb (count kinds k) 0) = true <-> In k kinds.
Proof.
  destruct (Nat.eqb (count kinds k) 0) eqn:E; simpl.
  - apply count_zero_iff in E. split; [discriminate|contradiction].
  - split; [|reflexivity]. intros _.
    destruct (in_dec QosPolicyKind_eq_dec k kinds) as [Hin|Hout]; [exact Hin|].
    apply count_zero_iff in Hout. congruence.
Qed.

Section PassMore.

Context {rmw : Rmw} {rclcpp : Rclcpp} {P : Type} {node : NodeParametersInterface P}.

(** The pass of [declare_qos_parameters] ends in the state its loop
    reached: validation changes nothing. *)
Lemma declare_qos_parameters_loop (options : QosOverridingOptions)
    (topic_name : string) (traits : EntityQosParametersTraits) (w : Refs P) :
  exists r1,
    for_each (allowed_policies traits)
      (declare_policy options (param_prefix_of options topic_name traits)
         (param_description_suffix_of options topic_name traits)) w
      = (r1, snd (declare_qos_parameters options topic_name traits w)) /\
    (fst (declare_qos_parameters options topic_name traits w) = Return tt ->
     r1 = Return tt).
Proof.
  unfold declare_qos_parameters, bind.
  destruct (for_each _ _ w) as [[[]|e] w1].
  - exists (Return tt). rewrite validate_state. auto.
  - exists (Throw e). simpl. split; [reflexivity|discriminate].
Qed.

(** What a pass adds to the log: one declaration for each kind of a prefix
    of the requested kinds of the range, with the name and the descriptor
    of the kind. *)
Lemma for_each_declarations (options : QosOverridingOptions) (prefix suffix : string)
    (range : list QosPolicyKind) (w w' : Refs P) (r : result unit) :
  for_each range (declare_policy options prefix suffix) w = (r, w') ->
  exists kinds rest new,
    filter (fun k => negb (Nat.eqb (count (policy_kinds options) k) 0)) range
      = List.app kinds rest /\
    declared w' = List.app (declared w) new /\
    map declared_name new = map (fun k => prefix ++ qos_policy_kind_to_cstr k) kinds /\
    map declared_descriptor new =
      map (fun k => mk_descriptor ("qos policy {" ++ qos_policy_kind_to_cstr k ++ suffix)
                      true) kinds /\
    (r = Return tt -> rest = []).
Proof.
  set (requested := fun k => negb (Nat.eqb (count (policy_kinds options) k) 0)).
  revert w. induction range as [|k range IH]; intros w H; simpl in H.
  - inversion H; subst. exists [], [], []. simpl. rewrite app_nil_r. auto.
  - unfold bind in H. simpl filter.
    destruct (in_dec QosPolicyKind_eq_dec k (policy_kinds options)) as [Hin|Hout].
    + assert (requested k = true) as -> by now apply requested_iff.
      rewrite declare_policy_requested in H by exact Hin.
      destruct (get_default_qos_param_value k (ref_qos w)) as [default|e].
      * cbv zeta in H.
        destruct (declare_parameter _ default _ (ref_parameters w)) as [[value|e] p].
        -- destruct (apply_qos_override k value (ref_qos w)) as [[[]|e] q].
           ++ destruct (IH _ H) as (kinds & rest & new & Hsplit & Hlog & Hn & Hd & Hdone).
              eexists (k :: kinds), rest, (_ :: new). simpl in *.
              rewrite Hsplit, Hlog, <- app_assoc, Hn, Hd. simpl. auto.
           ++ inversion H; subst.
              eexists [k], (filter requested range), [_]. simpl.
              repeat split. discriminate.
        -- inversion H; subst.
           eexists [k], (filter requested range), [_]. simpl.
           repeat split. discriminate.
      * inversion H; subst. exists [], (k :: filter requested range), []. simpl.
        rewrite app_nil_r. repeat split. discriminate.
    + assert (requested k = false) as ->.
      { unfold requested. apply count_zero_iff in Hout. now rewrite Hout. }
      rewrite declare_policy_not_requested in H by exact Hout.
      exact (IH _ H).
Qed.

(** With a catalog that lists no kind twice, the default of every
    declaration is the encoding of the profile the pass started from. *)
Lemma for_each_defaults (options : QosOverridingOptions) (prefix suffix : string)
    (range : list QosPolicyKind) (w w' : Refs P) (r : result unit) :
  NoDup range ->
  for_each range (declare_policy options prefix suffix) w = (r, w') ->
  exists kinds new,
    declared w' = List.app (declared w) new /\
    Forall2 (fun k d =>
               In k range /\
               declared_name d = prefix ++ qos_policy_kind_to_cstr k /\
               get_default_qos_param_value k (ref_qos w) = Return (declared_default d))
      kinds new.
Proof.
  intros Hnodup. revert w.
  induction range as [|k range IH]; intros w H; simpl in H.
  - inversion H; subst. exists [], []. rewrite app_nil_r. auto.
  - inversion Hnodup as [|k0 range0 Hnotin Hnodup']; subst.
    specialize (IH Hnodup').
    assert (forall (w1 : Refs P) kinds new,
               (forall k', k' <> k ->
                           policy_slot k' (ref_qos w1) = policy_slot k' (ref_qos w)) ->
               Forall2 (fun k' d =>
                          In k' range /\
                          declared_name d = prefix ++ qos_policy_kind_to_cstr k' /\
                          get_default_qos_param_value k' (ref_qos w1)
                            = Return (declared_default d)) kinds new ->
               Forall2 (fun k' d =>
                          In k' (k :: range) /\
                          declared_name d = prefix ++ qos_policy_kind_to_cstr k' /\
                          get_default_qos_param_value k' (ref_qos w)
                            = Return (declared_default d)) kinds new) as Hlift.
    { intros w1 kinds new Hslots Hall.
      induction Hall as [|k' d kinds new (Hin & Hname & Hdef) _ IHall]; constructor;
        [|exact IHall].
      split; [now right|split; [exact Hname|]].
      rewrite <- Hdef. apply get_default_reads_slot. symmetry. apply Hslots.
      intros ->. contradiction. }
    unfold bind in H.
    destruct (in_dec QosPolicyKind_eq_dec k (policy_kinds options)) as [Hin|Hout].
    + rewrite declare_policy_requested in H by exact Hin.
      destruct (get_default_qos_param_value k (ref_qos w)) as [default|e] eqn:Hdefault.
      * cbv zeta in H.
        destruct (declare_parameter _ default _ (ref_parameters w)) as [[value|e] p].
        -- destruct (apply_qos_override k value (ref_qos w)) as [[[]|e] q] eqn:Happly.
           ++ destruct (IH _ H) as (kinds & new & Hlog & Hall).
              eexists (k :: kinds), (_ :: new). simpl in Hlog.
              split; [rewrite Hlog, <- app_assoc; reflexivity|].
              constructor.
              ** simpl. split; [now left|split; [reflexivity|exact Hdefault]].
              ** apply (Hlift _ kinds new) in Hall; [exact Hall|].
                 intros k' Hk'. simpl.
                 exact (apply_qos_override_frame _ _ _ _ _ _ Happly Hk').
           ++ inversion H; subst. eexists [k], [_]. simpl. split; [reflexivity|].
              constructor; [|constructor].
              simpl. split; [now left|split; [reflexivity|exact Hdefault]].
        -- inversion H; subst. eexists [k], [_]. simpl. split; [reflexivity|].
           constructor; [|constructor].
           simpl. split; [now left|split; [reflexivity|exact Hdefault]].
      * inversion H; subst. exists [], []. simpl. rewrite app_nil_r. auto.
    + rewrite declare_policy_not_requested in H by exact Hout.
      destruct (IH _ H) as (kinds & new & Hlog & Hall).
      exists kinds, new. split; [exact Hlog|].
      apply (Hlift w kinds new); [reflexivity|exact Hall].
Qed.

(** A kind that was not requested keeps its value through the loop. *)
Lemma for_each_unrequested (options : QosOverridingOptions) (prefix suffix : string)
    (range : list QosPolicyKind) (k : QosPolicyKind) (w w' : Refs P) (r : result unit) :
  ~ In k (policy_kinds options) ->
  for_each range (declare_policy options prefix suffix) w = (r, w') ->
  policy_slot k (ref_qos w') = policy_slot k (ref_qos w).
Proof.
  intros Hk. revert w. induction range as [|k0 range IH]; intros w H; simpl in H.
  - inversion H; reflexivity.
  - unfold bind in H.
    destruct (declare_policy options prefix suffix k0 w) as [[[]|e] w1] eqn:Hbody.
    + rewrite (IH _ H).
      destruct (QosPolicyKind_eq_dec k k0) as [->|Hne].
      * rewrite declare_policy_not_requested in Hbody by exact Hk.
        inversion Hbody; reflexivity.
      * exact (declare_policy_frame _ _ _ _ _ _ _ _ Hbody Hne).
    + inversion H; subst.
      destruct (QosPolicyKind_eq_dec k k0) as [->|Hne].
      * rewrite declare_policy_not_requested in Hbody by exact Hk.
        inversion Hbody.
      * exact (declare_policy_frame _ _ _ _ _ _ _ _ Hbody Hne).
Qed.

(** The loop looks at the requested kinds only to ask whether a kind is
    among them. *)
Lemma for_each_membership (options : QosOverridingOptions)
    (kinds : list QosPolicyKind) (prefix suffix : string)
    (range : list QosPolicyKind) (w : Refs P) :
  (forall k, In k kinds <-> In k (policy_kinds options)) ->
  for_each range (declare_policy (requests options kinds) prefix suffix) w =
  for_each range (declare_policy options prefix suffix) w.
Proof.
  intros Hsame. revert w. induction range as [|k range IH]; intros w; simpl;
    [reflexivity|].
  unfold bind.
  assert (declare_policy (requests options kinds) prefix suffix k w =
          declare_policy options prefix suffix k w) as ->.
  { unfold declare_policy, requests. simpl.
    assert (negb (Nat.eqb (count kinds k) 0) =
            negb (Nat.eqb (count (policy_kinds options) k) 0)) as ->; [|reflexivity].
    destruct (negb (Nat.eqb (count kinds k) 0)) eqn:E1;
      destruct (negb (Nat.eqb (count (policy_kinds options) k) 0)) eqn:E2;
      try reflexivity.
    - apply requested_iff in E1. apply Hsame in E1. apply requested_iff in E1. congruence.
    - apply requested_iff in E2. apply Hsame in E2. apply requested_iff in E2. congruence. }
  destruct (declare_policy options prefix suffix k w) as [[[]|e] w1]; [|reflexivity].
  apply IH.
Qed.

End PassMore.

Section Identity.

Context {rmw : Rmw} {rclcpp : Rclcpp}.

(** Applying the encoding of a kind to the profile it was read from gives
    that profile back. *)
Lemma encode_then_apply_identity (k : QosPolicyKind) (p : QoS) :
  inverse_lookups ->
  is_enumerator k = true ->
  is_uint64 (depth p) ->
  valid_profile p = true ->
  normalized_duration k p ->
  exists v,
    get_default_qos_param_value k p = Return v /\
    apply_qos_override k v p = (Return tt, p).
Proof.
  intros Hinv Hk Hdepth Hvalid Hnorm.
  unfold valid_profile in Hvalid.
  apply andb_prop in Hvalid as [Hvalid Hrel].
  apply andb_prop in Hvalid as [Hvalid Hliv].
  apply andb_prop in Hvalid as [Hdur Hhis].
  assert (forall e, string_enum k = Some e ->
                    has_name (enum_to_str e) (enum_field e p) = true ->
                    exists v,
                      get_default_qos_param_value k p = Return v /\
                      apply_qos_override k v p = (Return tt, p)) as Henum.
  { intros e He Hname.
    destruct (string_enum_round_trip k e p He (Hinv k e He) Hname) as (s & Hget & Happ).
    eauto. }
  assert (forall field, duration_field k = Some field ->
                        exists v,
                          get_default_qos_param_value k p = Return v /\
                          apply_qos_override k v p = (Return tt, p)) as Hduration.
  { intros field Hf. destruct (Hnorm field Hf) as [Hs Hn].
    exists (ParameterValue_int64 (sec (field p) * 10 ^ 9 + nsec (field p))).
    split; [|now apply duration_round_trip].
    rewrite (get_default_duration k field p Hf).
    rewrite rmw_duration_to_int64_t_exact by lia. reflexivity. }
  destruct k; try discriminate Hk.
  - eexists. split; [reflexivity|]. unfold_apply; simpl. now destruct p.
  - now apply (Hduration deadline).
  - now apply (Henum _ eq_refl).
  - now apply (Henum _ eq_refl).
  - eexists. split; [reflexivity|]. unfold_apply; simpl.
    rewrite size_t_of_int64_of_size_t by exact Hdepth. now destruct p.
  - now apply (Hduration lifespan).
  - now apply (Henum _ eq_refl).
  - now apply (Hduration liveliness_lease_duration).
  - now apply (Henum _ eq_refl).
Qed.

End Identity.

Section PassExtras.

Context {rmw : Rmw} {rclcpp : Rclcpp} {P : Type} {node : NodeParametersInterface P}.

(** X7. A call only appends to the declarations of the node, one for each
    kind of a prefix of the eligible kinds; each of them is read-only and
    described as ["qos policy {" + kind + "} for " + entity type + " {" +
    topic + "}" (+ " with id {" + id + "}" when the id is not empty)]. *)
Theorem declarations_are_described_and_read_only (options : QosOverridingOptions)
    (topic_name : string) (traits : EntityQosParametersTraits) (w : Refs P) :
  exists kinds rest new,
    eligible options traits = List.app kinds rest /\
    declared (snd (declare_qos_parameters options topic_name traits w))
      = List.app (declared w) new /\
    map declared_name new =
      map (build_name topic_name (entity_type traits) (id options)) kinds /\
    map declared_descriptor new =
      map (fun k =>
             mk_descriptor
               (build_description topic_name (entity_type traits) (id options) k) true)
        kinds.
Proof.
  destruct (declare_qos_parameters_loop options topic_name traits w) as (r1 & Hloop & _).
  destruct (for_each_declarations _ _ _ _ _ _ _ Hloop)
    as (kinds & rest & new & Hsplit & Hlog & Hnames & Hdesc & _).
  exists kinds, rest, new. split; [exact Hsplit|split; [exact Hlog|split]].
  - rewrite Hnames. apply map_ext. intros k. apply param_name_eq.
  - rewrite Hdesc. apply map_ext. intros k. now rewrite param_description_eq.
Qed.

(** X8. With a catalog that lists no kind twice, the default passed to the
    node for a kind is the encoding of the profile the caller handed in:
    overrides applied earlier in the same call do not reach it. *)
Theorem declared_defaults_encode_initial_profile (options : QosOverridingOptions)
    (topic_name : string) (traits : EntityQosParametersTraits) (w : Refs P) :
  NoDup (allowed_policies traits) ->
  exists kinds new,
    declared (snd (declare_qos_parameters options topic_name traits w))
      = List.app (declared w) new /\
    Forall2 (fun k d =>
               In k (allowed_policies traits) /\
               declared_name d =
                 build_name topic_name (entity_type traits) (id options) k /\
               get_default_qos_param_value k (ref_qos w) = Return (declared_default d))
      kinds new.
Proof.
  intros Hnodup.
  destruct (declare_qos_parameters_loop options topic_name traits w) as (r1 & Hloop & _).
  destruct (for_each_defaults _ _ _ _ _ _ _ Hnodup Hloop) as (kinds & new & Hlog & Hall).
  exists kinds, new. split; [exact Hlog|].
  revert Hall. apply Forall2_impl. intros k d (Hin & Hname & Hdef).
  rewrite param_name_eq in Hname. auto.
Qed.

(** X9. When the catalog lists no kind twice and its kinds are stringified
    to different strings, a call never declares the same name twice. *)
Theorem declared_names_are_distinct (options : QosOverridingOptions)
    (topic_name : string) (traits : EntityQosParametersTraits) (qos : QoS)
    (parameters_interface : P) :
  NoDup (allowed_policies traits) ->
  (forall k1 k2,
      In k1 (allowed_policies traits) -> In k2 (allowed_policies traits) ->
      qos_policy_kind_to_cstr k1 = qos_policy_kind_to_cstr k2 -> k1 = k2) ->
  NoDup (map declared_name
           (declared (snd (declare_qos_parameters options topic_name traits
                             (mk_refs qos parameters_interface []))))).
Proof.
  intros Hnodup Hinj.
  destruct (declare_qos_parameters_loop options topic_name traits
              (mk_refs qos parameters_interface [])) as (r1 & Hloop & _).
  destruct (for_each_declarations _ _ _ _ _ _ _ Hloop)
    as (kinds & rest & new & Hsplit & Hlog & Hnames & _).
  rewrite Hlog. simpl. rewrite Hnames.
  assert (NoDup kinds) as Hkinds.
  { apply (NoDup_app_remove_r kinds rest). rewrite <- Hsplit.
    now apply NoDup_filter. }
  assert (forall k, In k kinds -> In k (allowed_policies traits)) as Hsub.
  { intros k Hk.
    assert (In k (List.app kinds rest)) as Hin by (apply in_or_app; now left).
    rewrite <- Hsplit in Hin. apply filter_In in Hin. tauto. }
  apply NoDup_map_NoDup_ForallPairs; [|exact Hkinds].
  intros k1 k2 H1 H2 Heq.
  apply append_cancel_l in Heq. auto.
Qed.

(** X10. On one topic the names declared for a publisher and the names
    declared for a subscription never coincide, whatever the ids, the
    requested kinds and the nodes. *)
Theorem publisher_and_subscription_names_differ
    (options1 options2 : QosOverridingOptions) (topic_name : string)
    (p1 p2 : P) (q1 q2 : QoS) (n1 n2 : string) :
  In n1 (map declared_name
           (declared (snd (declare_publisher_qos_parameters options1 p1 topic_name q1)))) ->
  In n2 (map declared_name
           (declared (snd (declare_subscription_qos_parameters options2 p2 topic_name
                             q2)))) ->
  n1 <> n2.
Proof.
  unfold declare_publisher_qos_parameters, declare_subscription_qos_parameters.
  intros H1 H2.
  destruct (declare_qos_parameters options1 topic_name PublisherQosParametersTraits
              (mk_refs q1 p1 [])) as [r1 w1] eqn:E1.
  destruct (declare_qos_parameters options2 topic_name SubscriptionQosParametersTraits
              (mk_refs q2 p2 [])) as [r2 w2] eqn:E2.
  destruct (declared_names _ _ _ _ _ _ E1) as (kinds1 & _ & _ & Hn1 & _).
  destruct (declared_names _ _ _ _ _ _ E2) as (kinds2 & _ & _ & Hn2 & _).
  simpl in H1, H2, Hn1, Hn2. rewrite Hn1 in H1. rewrite Hn2 in H2.
  apply in_map_iff in H1 as (k1 & <- & _).
  apply in_map_iff in H2 as (k2 & <- & _).
  unfold build_name. intros Heq.
  apply append_cancel_l in Heq. apply append_cancel_l in Heq.
  simpl in Heq. discriminate Heq.
Qed.

(** X11. A kind that was not requested keeps the value the caller gave it,
    whatever the node answers and however the call ends. *)
Theorem unrequested_kind_keeps_its_value (options : QosOverridingOptions)
    (topic_name : string) (traits : EntityQosParametersTraits) (k : QosPolicyKind)
    (w : Refs P) :
  ~ In k (policy_kinds options) ->
  policy_slot k (ref_qos (snd (declare_qos_parameters options topic_name traits w))) =
  policy_slot k (ref_qos w).
Proof.
  intros Hk.
  destruct (declare_qos_parameters_loop options topic_name traits w) as (r1 & Hloop & _).
  exact (for_each_unrequested _ _ _ _ _ _ _ _ Hk Hloop).
Qed.

(** X12. The requested kinds count as a set: two requests with the same
    members, in any order and with any repetitions, give the same call. *)
Theorem requested_kinds_matter_by_membership (options : QosOverridingOptions)
    (kinds : list QosPolicyKind) (topic_name : string)
    (traits : EntityQosParametersTraits) (w : Refs P) :
  (forall k, In k kinds <-> In k (policy_kinds options)) ->
  declare_qos_parameters (requests options kinds) topic_name traits w =
  declare_qos_parameters options topic_name traits w.
Proof.
  intros Hsame. unfold declare_qos_parameters, bind.
  change (param_prefix_of (requests options kinds) topic_name traits)
    with (param_prefix_of options topic_name traits).
  change (param_description_suffix_of (requests options kinds) topic_name traits)
    with (param_description_suffix_of options topic_name traits).
  rewrite for_each_membership by exact Hsame. reflexivity.
Qed.

(** X13. Validation comes last and changes nothing: a call that throws
    before it ends the same way whatever the callback, and a call whose
    loop succeeds returns when there is no callback or the callback accepts
    the overridden profile; the state is that of the loop in every case. *)
Theorem validation_comes_last (options : QosOverridingOptions) (topic_name : string)
    (traits : EntityQosParametersTraits) (w w' : Refs P) (r : result unit) :
  declare_qos_parameters (without_callback options) topic_name traits w = (r, w') ->
  declare_qos_parameters options topic_name traits w =
    (match r with
     | Throw e => Throw e
     | Return _ =>
         match validation_callback options with
         | Some callback =>
             if callback (ref_qos w') then Return tt
             else Throw (InvalidQosOverridesException "validation callback failed")
         | None => Return tt
         end
     end, w').
Proof.
  intros Hpass. rewrite declare_qos_parameters_without_callback in Hpass.
  unfold declare_qos_parameters, bind. rewrite Hpass.
  destruct r as [[]|e]; [|reflexivity].
  unfold validate. destruct (validation_callback options) as [callback|]; [|reflexivity].
  now destruct (callback (ref_qos w')).
Qed.

(** A loop over a node that answers every declaration with its default
    succeeds and gives the profile back. *)
Lemma for_each_echo (options : QosOverridingOptions) (prefix suffix : string)
    (range : list QosPolicyKind) (w : Refs P) :
  inverse_lookups ->
  (forall name default descriptor p,
      fst (declare_parameter name default descriptor p) = Return default) ->
  is_uint64 (depth (ref_qos w)) ->
  valid_profile (ref_qos w) = true ->
  (forall k, In k range -> is_enumerator k = true) ->
  (forall k, In k range -> In k (policy_kinds options) ->
             normalized_duration k (ref_qos w)) ->
  exists w',
    for_each range (declare_policy options prefix suffix) w = (Return tt, w') /\
    ref_qos w' = ref_qos w.
Proof.
  intros Hinv Hecho. revert w.
  induction range as [|k range IH]; intros w Hdepth Hvalid Henum Hnorm; simpl.
  - exists w. auto.
  - unfold bind.
    destruct (in_dec QosPolicyKind_eq_dec k (policy_kinds options)) as [Hin|Hout].
    + rewrite declare_policy_requested by exact Hin.
      destruct (encode_then_apply_identity k (ref_qos w) Hinv
                  (Henum k (or_introl eq_refl)) Hdepth Hvalid
                  (Hnorm k (or_introl eq_refl) Hin)) as (v & Hget & Happly).
      rewrite Hget. cbv zeta.
      match goal with
      | |- context [declare_parameter ?n v ?d (ref_parameters w)] =>
          pose proof (Hecho n v d (ref_parameters w)) as Hanswer;
          destruct (declare_parameter n v d (ref_parameters w)) as [answer p]
      end.
      simpl in Hanswer. subst answer. rewrite Happly.
      match goal with
      | |- context [for_each range _ ?w1] =>
          destruct (IH w1) as (w' & Hrun & Hqos); simpl; auto
      end.
      * intros k' Hk'. apply Henum. now right.
      * intros k' Hk'. apply Hnorm. now right.
      * exists w'. auto.
    + rewrite declare_policy_not_requested by exact Hout.
      apply IH; auto.
      * intros k' Hk'. apply Henum. now right.
      * intros k' Hk'. apply Hnorm. now right.
Qed.

(** X14. When the node answers every declaration with the default it was
    given, the lookup functions are inverse to each other, the profile is
    valid with its depth in range, the catalog holds enumerators only and
    the durations of the eligible kinds have fewer than [2^31] seconds and
    fewer than [10^9] nanoseconds, the call leaves the profile as it was and
    ends as the callback decides on that profile. *)
Theorem call_without_overrides_keeps_profile (options : QosOverridingOptions)
    (topic_name : string) (traits : EntityQosParametersTraits) (w : Refs P) :
  inverse_lookups ->
  (forall name default descriptor p,
      fst (declare_parameter name default descriptor p) = Return default) ->
  is_uint64 (depth (ref_qos w)) ->
  valid_profile (ref_qos w) = true ->
  (forall k, In k (allowed_policies traits) -> is_enumerator k = true) ->
  (forall k, In k (eligible options traits) -> normalized_duration k (ref_qos w)) ->
  exists w',
    declare_qos_parameters options topic_name traits w =
      (match validation_callback options with
       | Some callback =>
           if callback (ref_qos w) then Return tt
           else Throw (InvalidQosOverridesException "validation callback failed")
       | None => Return tt
       end, w') /\
    ref_qos w' = ref_qos w.
Proof.
  intros Hinv Hecho Hdepth Hvalid Henum Hnorm.
  destruct (for_each_echo options (param_prefix_of options topic_name traits)
              (param_description_suffix_of options topic_name traits)
              (allowed_policies traits) w Hinv Hecho Hdepth Hvalid Henum)
    as (w' & Hrun & Hqos).
  { intros k Hk Hreq. apply Hnorm. unfold eligible. apply filter_In.
    split; [exact Hk|now apply requested_iff]. }
  exists w'. split; [|exact Hqos].
  unfold declare_qos_parameters, bind. rewrite Hrun.
  unfold validate. rewrite Hqos.
  destruct (validation_callback options) as [callback|]; [|reflexivity].
  now destruct (callback (ref_qos w)).
Qed.

End PassExtras.

(** * The further properties at concrete inputs *)

Lemma publisher_catalog_NoDup : NoDup (allowed_policies PublisherQosParametersTraits).
Proof. repeat constructor; simpl; intuition discriminate. Qed.

Lemma policy_kind_names_distinct (k1 k2 : QosPolicyKind) :
  In k1 (allowed_policies PublisherQosParametersTraits) ->
  In k2 (allowed_policies PublisherQosParametersTraits) ->
  policy_kind_names k1 = policy_kind_names k2 -> k1 = k2.
Proof.
  intros H1 H2.
  destruct k1; try (simpl in H1; exfalso; intuition discriminate);
    destruct k2; try (simpl in H2; exfalso; intuition discriminate);
    simpl; intros H; try reflexivity; discriminate H.
Qed.

Section MoreInstances.

#[local] Existing Instance rmw_tables.
#[local] Existing Instance rclcpp_parts.
#[local] Existing Instance Node_parameters.

Lemma override_touches_only_its_kind_witness :
  apply_qos_override Depth (ParameterValue_int64 5) sensor_data_profile =
    (Return tt, set_depth 5 sensor_data_profile) /\
  (forall k', k' <> Depth ->
              policy_slot k' (set_depth 5 sensor_data_profile) =
              policy_slot k' sensor_data_profile).
Proof.
  split; [reflexivity|].
  exact (proj1 (override_touches_only_its_kind Depth (ParameterValue_int64 5)
                  sensor_data_profile (set_depth 5 sensor_data_profile) (Return tt)
                  eq_refl)).
Defined.

Lemma overrides_compose_witness :
  apply_qos_override Depth (ParameterValue_int64 7) (set_depth 5 sensor_data_profile) =
    (Return tt, set_depth 7 sensor_data_profile) /\
  exists q2,
    apply_qos_override Reliability (ParameterValue_string "reliable") sensor_data_profile
      = (Return tt, q2) /\
    apply_qos_override Depth (ParameterValue_int64 5) q2 =
      (Return tt, set_reliability 1 (set_depth 5 sensor_data_profile)).
Proof.
  split.
  - exact (proj1 overrides_compose Depth (ParameterValue_int64 5)
             (ParameterValue_int64 7) sensor_data_profile
             (set_depth 5 sensor_data_profile) (set_depth 7 sensor_data_profile)
             eq_refl eq_refl).
  - refine (proj2 overrides_compose Depth Reliability (ParameterValue_int64 5)
              (ParameterValue_string "reliable") sensor_data_profile
              (set_depth 5 sensor_data_profile)
              (set_reliability 1 (set_depth 5 sensor_data_profile)) _ eq_refl eq_refl).
    discriminate.
Defined.

Lemma override_reads_back_witness :
  (is_int64 (-1) /\
   exists q',
     apply_qos_override Depth (ParameterValue_int64 (-1)) sensor_data_profile
       = (Return tt, q') /\
     get_default_qos_param_value Depth q' = Return (ParameterValue_int64 (-1))) /\
  (0 <= 2500000000 < 2 ^ 31 * 10 ^ 9 /\
   exists q',
     apply_qos_override Lifespan (ParameterValue_int64 2500000000) sensor_data_profile
       = (Return tt, q') /\
     lifespan q' = mk_rmw_time (2500000000 / 10 ^ 9) (2500000000 mod 10 ^ 9) /\
     get_default_qos_param_value Lifespan q' = Return (ParameterValue_int64 2500000000)).
Proof.
  assert (is_int64 (-1)) as Hv by (unfold is_int64; lia).
  assert (0 <= 2500000000 < 2 ^ 31 * 10 ^ 9) as Hd by lia.
  split; (split; [assumption|]).
  - exact (proj1 override_reads_back (-1) sensor_data_profile Hv).
  - exact (proj1 (proj2 override_reads_back) Lifespan lifespan 2500000000
             sensor_data_profile eq_refl Hd).
Defined.

Lemma depth_override_wraps_witness :
  is_int64 (-1) /\
  apply_qos_override Depth (ParameterValue_int64 (-1)) sensor_data_profile =
    (Return tt, set_depth (2 ^ 64 - 1) sensor_data_profile).
Proof.
  assert (is_int64 (-1)) as Hv by (unfold is_int64; lia).
  split; [exact Hv|].
  exact (proj1 (depth_override_wraps (-1) sensor_data_profile Hv)).
Defined.

Lemma default_has_required_variant_witness :
  get_default_qos_param_value Reliability sensor_data_profile =
    Return (ParameterValue_string "best_effort") /\
  required_type Reliability = Some (get_type (ParameterValue_string "best_effort")) /\
  required_type Depth = Some PARAMETER_INTEGER /\
  PARAMETER_INTEGER <> PARAMETER_STRING /\
  exists v,
    get_default_qos_param_value Depth sensor_data_profile = Return v /\
    get_type v = PARAMETER_INTEGER.
Proof.
  assert (PARAMETER_INTEGER <> PARAMETER_STRING) as Hne by discriminate.
  split; [reflexivity|]. split.
  - exact (proj1 (default_has_required_variant Reliability sensor_data_profile)
             (ParameterValue_string "best_effort") eq_refl).
  - split; [reflexivity|]. split; [exact Hne|].
    exact (proj2 (default_has_required_variant Depth sensor_data_profile)
             PARAMETER_INTEGER eq_refl Hne).
Defined.

Lemma string_override_accepted_iff_witness :
  exists e,
    string_enum Reliability = Some e /\
    enum_from_str e (c_str "reliable") <> enum_UNKNOWN e /\
    (exists q',
        apply_qos_override Reliability (ParameterValue_string "reliable")
          sensor_data_profile = (Return tt, q')) /\
    policy_slot Reliability (set_reliability 1 sensor_data_profile) =
      Some (enum_value (enum_from_str e (c_str "reliable"))).
Proof.
  eexists. split; [reflexivity|].
  assert (valued 3 reliability_names (c_str "reliable") <> 3) as Hne
    by (vm_compute; discriminate).
  split; [exact Hne|].
  pose proof (string_override_accepted_iff Reliability _ "reliable" sensor_data_profile
                eq_refl) as [Hiff Hwritten].
  split.
  - exact (proj1 Hiff Hne).
  - exact (Hwritten (set_reliability 1 sensor_data_profile) eq_refl).
Defined.

Lemma declared_defaults_encode_initial_profile_witness :
  NoDup (allowed_policies PublisherQosParametersTraits) /\
  exists kinds new,
    declared (snd (declare_qos_parameters (sensor_options None) "chatter"
                     PublisherQosParametersTraits
                     (start system_default_profile (node_with depth_override))))
      = List.app [] new /\
    Forall2 (fun k d =>
               In k (allowed_policies PublisherQosParametersTraits) /\
               declared_name d = build_name "chatter" "publisher" "sensor" k /\
               get_default_qos_param_value k system_default_profile
                 = Return (declared_default d))
      kinds new.
Proof.
  split; [exact publisher_catalog_NoDup|].
  exact (declared_defaults_encode_initial_profile (sensor_options None) "chatter"
           PublisherQosParametersTraits
           (start system_default_profile (node_with depth_override))
           publisher_catalog_NoDup).
Defined.

Lemma declared_names_are_distinct_witness :
  NoDup (allowed_policies PublisherQosParametersTraits) /\
  NoDup (map declared_name
           (declared (snd (declare_qos_parameters every_kind_options "chatter"
                             PublisherQosParametersTraits
                             (mk_refs sensor_data_profile (node_with []) []))))).
Proof.
  split; [exact publisher_catalog_NoDup|].
  exact (declared_names_are_distinct every_kind_options "chatter"
           PublisherQosParametersTraits sensor_data_profile (node_with [])
           publisher_catalog_NoDup policy_kind_names_distinct).
Defined.

Lemma publisher_and_subscription_names_differ_witness :
  In "qos_overrides.chatter.publisher.depth"
    (map declared_name
       (declared (snd (declare_publisher_qos_parameters every_kind_options
                         (node_with []) "chatter" sensor_data_profile)))) /\
  In "qos_overrides.chatter.subscription.depth"
    (map declared_name
       (declared (snd (declare_subscription_qos_parameters every_kind_options
                         (node_with []) "chatter" sensor_data_profile)))) /\
  "qos_overrides.chatter.publisher.depth" <> "qos_overrides.chatter.subscription.depth".
Proof.
  assert (In "qos_overrides.chatter.publisher.depth"
            (map declared_name
               (declared (snd (declare_publisher_qos_parameters every_kind_options
                                 (node_with []) "chatter" sensor_data_profile)))))
    as H1 by (vm_compute; tauto).
  assert (In "qos_overrides.chatter.subscription.depth"
            (map declared_name
               (declared (snd (declare_subscription_qos_parameters every_kind_options
                                 (node_with []) "chatter" sensor_data_profile)))))
    as H2 by (vm_compute; tauto).
  split; [exact H1|]. split; [exact H2|].
  exact (publisher_and_subscription_names_differ every_kind_options every_kind_options
           "chatter" (node_with []) (node_with []) sensor_data_profile
           sensor_data_profile _ _ H1 H2).
Defined.

Lemma unrequested_kind_keeps_its_value_witness :
  ~ In Durability (policy_kinds (sensor_options None)) /\
  policy_slot Durability
    (ref_qos (snd (declare_qos_parameters (sensor_options None) "chatter"
                     PublisherQosParametersTraits
                     (start sensor_data_profile (node_with bad_reliability_override))))) =
  policy_slot Durability sensor_data_profile.
Proof.
  assert (~ In Durability (policy_kinds (sensor_options None))) as Hout
    by (simpl; intuition discriminate).
  split; [exact Hout|].
  exact (unrequested_kind_keeps_its_value (sensor_options None) "chatter"
           PublisherQosParametersTraits Durability
           (start sensor_data_profile (node_with bad_reliability_override)) Hout).
Defined.

Lemma requested_kinds_matter_by_membership_witness :
  (forall k, In k [Reliability; Depth; Depth; Reliability] <->
             In k (policy_kinds (sensor_options None))) /\
  declare_qos_parameters
    (mk_options "sensor" [Reliability; Depth; Depth; Reliability] None) "chatter"
    PublisherQosParametersTraits
    (start sensor_data_profile (node_with depth_override)) =
  declare_qos_parameters (sensor_options None) "chatter" PublisherQosParametersTraits
    (start sensor_data_profile (node_with depth_override)).
Proof.
  assert (forall k, In k [Reliability; Depth; Depth; Reliability] <->
                    In k (policy_kinds (sensor_options None))) as Hsame
    by (intros k; simpl; tauto).
  split; [exact Hsame|].
  exact (requested_kinds_matter_by_membership (sensor_options None)
           [Reliability; Depth; Depth; Reliability] "chatter"
           PublisherQosParametersTraits
           (start sensor_data_profile (node_with depth_override)) Hsame).
Defined.

Lemma validation_comes_last_witness :
  exists w' e,
    declare_qos_parameters (without_callback (sensor_options (Some shallow))) "chatter"
      PublisherQosParametersTraits
      (start system_default_profile (node_with bad_reliability_override))
      = (Throw e, w') /\
    declare_qos_parameters (sensor_options (Some shallow)) "chatter"
      PublisherQosParametersTraits
      (start system_default_profile (node_with bad_reliability_override))
      = (Throw e, w').
Proof.
  eexists. eexists.
  split.
  - vm_compute. reflexivity.
  - refine (validation_comes_last (sensor_options (Some shallow)) "chatter"
              PublisherQosParametersTraits
              (start system_default_profile (node_with bad_reliability_override))
              _ (Throw _) _).
    vm_compute. reflexivity.
Defined.

Lemma call_without_overrides_keeps_profile_witness :
  exists w',
    declare_qos_parameters (node := Echo_parameters) every_kind_options "chatter"
      PublisherQosParametersTraits (mk_refs sensor_data_profile tt [])
      = (Return tt, w') /\
    ref_qos w' = sensor_data_profile.
Proof.
  refine (call_without_overrides_keeps_profile (node := Echo_parameters)
            every_kind_options "chatter" PublisherQosParametersTraits
            (mk_refs sensor_data_profile tt []) rmw_tables_inverse _ _ _ _ _).
  - intros name default descriptor p. reflexivity.
  - unfold is_uint64. simpl. lia.
  - reflexivity.
  - intros k Hk. simpl in Hk. decompose sum Hk; subst; try reflexivity; contradiction.
  - intros k Hk field Hfield.
    destruct k; simpl in Hfield; inversion Hfield; subst field; simpl; lia.
Defined.

End MoreInstances.
